(** * Dongome marketplace: domain-event layer and aggregates

    A shallow embedding of the Go sources of the repository:
    - [pkg/errors]                        (module [errors]),
    - [internal/users/domain/user.go]     (module [domain]),
    - [internal/listings/domain/listing.go] (module [listings]),
    - [pkg/events]                        (module [events]),
    - [internal/users/app] service        (module [app]).

    Go methods with a pointer receiver become functions that return the
    receiver as the call leaves it.  The ambient effects the code uses
    ([time.Now], [uuid.New], [bcrypt.GenerateFromPassword]) are drawn
    from an explicit [World] that is threaded through every call. *)

From Stdlib Require Import String List ZArith Bool Lia Ascii SpecFloat.
Import ListNotations.

Open Scope string_scope.
Open Scope Z_scope.

(* ===================================================================== *)
(** ** Go runtime values *)
(* ===================================================================== *)

(** [time.Time], as nanoseconds counted from the zero instant. *)
Definition Time := Z.

Definition IsZero (t : Time) : bool := t =? 0.

(** [time.Duration] is an int64 count of nanoseconds. *)
Definition Duration := Z.

Definition Millisecond : Duration := 1000000.
Definition Second : Duration := 1000 * Millisecond.
Definition Hour : Duration := 3600 * Second.

(** [float64]: the IEEE 754 binary64 values, with their comparison. *)
Definition float64 : Type := spec_float.
Definition float64_zero : float64 := S754_zero false.
Definition float64_leb (x y : float64) : bool := SFleb x y.

(** [[]byte] *)
Definition bytes := list Byte.byte.

(** Go's [int] on the 64-bit targets the service is built for: a signed
    64-bit integer whose arithmetic wraps around. *)
Definition int_bits : Z := 64.
Definition MaxInt : Z := 2 ^ (int_bits - 1) - 1.
Definition MinInt : Z := - 2 ^ (int_bits - 1).

Definition wrap_int (z : Z) : Z :=
  (z + 2 ^ (int_bits - 1)) mod 2 ^ int_bits - 2 ^ (int_bits - 1).

Definition is_empty (s : string) : bool :=
  match s with
  | EmptyString => true
  | String _ _ => false
  end.

(* ===================================================================== *)
(** ** pkg/errors *)
(* ===================================================================== *)

Module errors.

Definition ErrorCode := string.

Definition ErrCodeValidation : ErrorCode := "VALIDATION_ERROR".
Definition ErrCodeNotFound : ErrorCode := "NOT_FOUND".
Definition ErrCodeUnauthorized : ErrorCode := "UNAUTHORIZED".
Definition ErrCodeForbidden : ErrorCode := "FORBIDDEN".
Definition ErrCodeConflict : ErrorCode := "CONFLICT".
Definition ErrCodeInternalServer : ErrorCode := "INTERNAL_SERVER_ERROR".

(** [Details] is a [map[string]interface{}]; the constructors below only
    ever create it empty, so it is kept as an association list. *)
Record DomainError := mkDomainError {
  Code : ErrorCode;
  Message : string;
  Details : list (string * string)
}.

Definition NewDomainError (code : ErrorCode) (message : string) : DomainError :=
  {| Code := code; Message := message; Details := [] |}.

Definition ValidationError (message : string) : DomainError :=
  NewDomainError ErrCodeValidation message.

Definition NotFoundError (message : string) : DomainError :=
  NewDomainError ErrCodeNotFound message.

Definition UnauthorizedError (message : string) : DomainError :=
  NewDomainError ErrCodeUnauthorized message.

Definition ConflictError (message : string) : DomainError :=
  NewDomainError ErrCodeConflict message.

Definition InternalError (message : string) : DomainError :=
  NewDomainError ErrCodeInternalServer message.

(** The remaining codes of the package. *)
Definition ErrCodeUserNotFound : ErrorCode := "USER_NOT_FOUND".
Definition ErrCodeInvalidCredentials : ErrorCode := "INVALID_CREDENTIALS".
Definition ErrCodeEmailExists : ErrorCode := "EMAIL_EXISTS".
Definition ErrCodeUserNotVerified : ErrorCode := "USER_NOT_VERIFIED".
Definition ErrCodeListingNotFound : ErrorCode := "LISTING_NOT_FOUND".
Definition ErrCodeListingInactive : ErrorCode := "LISTING_INACTIVE".
Definition ErrCodeInsufficientStock : ErrorCode := "INSUFFICIENT_STOCK".
Definition ErrCodeTransactionNotFound : ErrorCode := "TRANSACTION_NOT_FOUND".
Definition ErrCodePaymentFailed : ErrorCode := "PAYMENT_FAILED".
Definition ErrCodeEscrowError : ErrorCode := "ESCROW_ERROR".

(** net/http status codes the package answers with. *)
Definition StatusOK : Z := 200.
Definition StatusCreated : Z := 201.
Definition StatusBadRequest : Z := 400.
Definition StatusUnauthorized : Z := 401.
Definition StatusForbidden : Z := 403.
Definition StatusNotFound : Z := 404.
Definition StatusConflict : Z := 409.
Definition StatusInternalServerError : Z := 500.

(** [case c1, c2, ...:] of a [switch] on an error code. *)
Definition is_one_of (code : ErrorCode) (cases : list ErrorCode) : bool :=
  existsb (String.eqb code) cases.

(** [(e *DomainError) HTTPStatusCode() int] *)
Definition HTTPStatusCode (e : DomainError) : Z :=
  if is_one_of (Code e) [ErrCodeValidation] then StatusBadRequest
  else if is_one_of (Code e)
            [ErrCodeNotFound; ErrCodeUserNotFound; ErrCodeListingNotFound;
             ErrCodeTransactionNotFound] then StatusNotFound
  else if is_one_of (Code e) [ErrCodeUnauthorized; ErrCodeInvalidCredentials]
  then StatusUnauthorized
  else if is_one_of (Code e) [ErrCodeForbidden; ErrCodeUserNotVerified]
  then StatusForbidden
  else if is_one_of (Code e) [ErrCodeConflict; ErrCodeEmailExists]
  then StatusConflict
  else StatusInternalServerError.

(** [(e *DomainError) Error() string]: [fmt.Sprintf("%s: %s", ...)]. *)
Definition Error (e : DomainError) : string :=
  Code e ++ ": " ++ Message e.

End errors.

(** Go's [error] interface: either a [*errors.DomainError] or an error
    value of a library (database driver, NATS client, encoding/json,
    context), identified by its message. *)
Inductive error : Type :=
| Domain (e : errors.DomainError)
| Foreign (msg : string).

(* ===================================================================== *)
(** ** The ambient world: clock, identifiers, password hashing *)
(* ===================================================================== *)

Record World := mkWorld {
  clock : nat -> Time;              (* the n-th reading of time.Now() *)
  ticks : nat;                      (* readings taken so far *)
  ids : nat -> string;              (* the n-th uuid.New().String() *)
  drawn : nat;                      (* identifiers drawn so far *)
  bcrypt : string -> string + error (* bcrypt.GenerateFromPassword, DefaultCost *)
}.

(** A small state monad; [S] is the state a computation threads. *)
Definition M (S A : Type) : Type := S -> A * S.

Definition ret {S A : Type} (a : A) : M S A := fun s => (a, s).

Definition bind {S A B : Type} (c : M S A) (k : A -> M S B) : M S B :=
  fun s => let (a, s') := c s in k a s'.

Declare Scope go_scope.
Delimit Scope go_scope with go.

Notation "x <- c ;; k" := (bind c (fun x => k))
  (at level 100, c at next level, right associativity) : go_scope.
Notation "c ;;; k" := (bind c (fun _ => k))
  (at level 100, right associativity) : go_scope.

Definition time_Now : M World Time :=
  fun w => (clock w (ticks w),
            {| clock := clock w; ticks := S (ticks w); ids := ids w;
               drawn := drawn w; bcrypt := bcrypt w |}).

Definition uuid_New : M World string :=
  fun w => (ids w (drawn w),
            {| clock := clock w; ticks := ticks w; ids := ids w;
               drawn := S (drawn w); bcrypt := bcrypt w |}).

Definition bcrypt_GenerateFromPassword (password : string)
  : M World (string + error) :=
  fun w => (bcrypt w password, w).

(** [err.Error()] *)
Definition error_text (e : error) : string :=
  match e with
  | Domain d => errors.Error d
  | Foreign msg => msg
  end.

(** A clock that never runs backwards. *)
Definition monotone_clock (w : World) : Prop :=
  forall m n : nat, (m <= n)%nat -> clock w m <= clock w n.

(* ===================================================================== *)
(** ** internal/users/domain *)
(* ===================================================================== *)

Module domain.

Definition UserStatus := string.
Definition UserStatusPending : UserStatus := "pending".
Definition UserStatusActive : UserStatus := "active".
Definition UserStatusSuspended : UserStatus := "suspended".
Definition UserStatusDeactive : UserStatus := "deactive".

Definition UserRole := string.
Definition UserRoleBuyer : UserRole := "buyer".
Definition UserRoleSeller : UserRole := "seller".
Definition UserRoleAdmin : UserRole := "admin".

Definition VerificationStatus := string.
Definition VerificationStatusPending : VerificationStatus := "pending".
Definition VerificationStatusApproved : VerificationStatus := "approved".
Definition VerificationStatusRejected : VerificationStatus := "rejected".

Record SellerProfile := mkSellerProfile {
  sp_ID : string;
  sp_UserID : string;
  sp_BusinessName : string;
  sp_BusinessAddress : string;
  sp_BusinessPhone : string;
  sp_BusinessEmail : string;
  sp_TaxNumber : string;
  sp_VerificationStatus : VerificationStatus;
  sp_VerificationNotes : string;
  sp_Rating : float64;
  sp_TotalReviews : Z;
  sp_CreatedAt : Time;
  sp_UpdatedAt : Time
}.

(** The user aggregate root, field for field. *)
Record User := mkUser {
  ID : string;
  Email : string;
  PasswordHash : string;
  FirstName : string;
  LastName : string;
  PhoneNumber : string;
  Avatar : string;
  Status : UserStatus;
  Role : UserRole;
  EmailVerified : bool;
  PhoneVerified : bool;
  VerificationToken : string;
  LastLoginAt : option Time;
  CreatedAt : Time;
  UpdatedAt : Time;
  SellerProfile_ : option SellerProfile
}.

(** Field updates of the form [u.F = v]. *)
Definition set_Role (v : UserRole) (u : User) : User :=
  mkUser (ID u) (Email u) (PasswordHash u) (FirstName u) (LastName u)
    (PhoneNumber u) (Avatar u) (Status u) v (EmailVerified u)
    (PhoneVerified u) (VerificationToken u) (LastLoginAt u) (CreatedAt u)
    (UpdatedAt u) (SellerProfile_ u).

Definition set_Status (v : UserStatus) (u : User) : User :=
  mkUser (ID u) (Email u) (PasswordHash u) (FirstName u) (LastName u)
    (PhoneNumber u) (Avatar u) v (Role u) (EmailVerified u)
    (PhoneVerified u) (VerificationToken u) (LastLoginAt u) (CreatedAt u)
    (UpdatedAt u) (SellerProfile_ u).

Definition set_EmailVerified (v : bool) (u : User) : User :=
  mkUser (ID u) (Email u) (PasswordHash u) (FirstName u) (LastName u)
    (PhoneNumber u) (Avatar u) (Status u) (Role u) v
    (PhoneVerified u) (VerificationToken u) (LastLoginAt u) (CreatedAt u)
    (UpdatedAt u) (SellerProfile_ u).

Definition set_VerificationToken (v : string) (u : User) : User :=
  mkUser (ID u) (Email u) (PasswordHash u) (FirstName u) (LastName u)
    (PhoneNumber u) (Avatar u) (Status u) (Role u) (EmailVerified u)
    (PhoneVerified u) v (LastLoginAt u) (CreatedAt u)
    (UpdatedAt u) (SellerProfile_ u).

Definition set_LastLoginAt (v : option Time) (u : User) : User :=
  mkUser (ID u) (Email u) (PasswordHash u) (FirstName u) (LastName u)
    (PhoneNumber u) (Avatar u) (Status u) (Role u) (EmailVerified u)
    (PhoneVerified u) (VerificationToken u) v (CreatedAt u)
    (UpdatedAt u) (SellerProfile_ u).

Definition set_UpdatedAt (v : Time) (u : User) : User :=
  mkUser (ID u) (Email u) (PasswordHash u) (FirstName u) (LastName u)
    (PhoneNumber u) (Avatar u) (Status u) (Role u) (EmailVerified u)
    (PhoneVerified u) (VerificationToken u) (LastLoginAt u) (CreatedAt u)
    v (SellerProfile_ u).

Definition set_SellerProfile (v : option SellerProfile) (u : User) : User :=
  mkUser (ID u) (Email u) (PasswordHash u) (FirstName u) (LastName u)
    (PhoneNumber u) (Avatar u) (Status u) (Role u) (EmailVerified u)
    (PhoneVerified u) (VerificationToken u) (LastLoginAt u) (CreatedAt u)
    (UpdatedAt u) v.

Local Open Scope go_scope.

(** [NewUser]: four emptiness checks in the source's order, then the
    password hash, the verification token, the identifier and two clock
    readings. *)
Definition NewUser (email password firstName lastName : string)
  : M World (User + error) :=
  if is_empty email then
    ret (inr (Domain (errors.ValidationError "email is required")))
  else if is_empty password then
    ret (inr (Domain (errors.ValidationError "password is required")))
  else if is_empty firstName then
    ret (inr (Domain (errors.ValidationError "first name is required")))
  else if is_empty lastName then
    ret (inr (Domain (errors.ValidationError "last name is required")))
  else
    hashed <- bcrypt_GenerateFromPassword password ;;
    match hashed with
    | inr err => ret (inr err)
    | inl hashedPassword =>
        verificationToken <- uuid_New ;;
        id <- uuid_New ;;
        createdAt <- time_Now ;;
        updatedAt <- time_Now ;;
        ret (inl {| ID := id;
                    Email := email;
                    PasswordHash := hashedPassword;
                    FirstName := firstName;
                    LastName := lastName;
                    PhoneNumber := EmptyString;
                    Avatar := EmptyString;
                    Status := UserStatusPending;
                    Role := UserRoleBuyer;
                    EmailVerified := false;
                    PhoneVerified := false;
                    VerificationToken := verificationToken;
                    LastLoginAt := None;
                    CreatedAt := createdAt;
                    UpdatedAt := updatedAt;
                    SellerProfile_ := None |})
    end.

(** [(u *User) VerifyEmail()] *)
Definition VerifyEmail (u : User) : M World User :=
  let u := set_EmailVerified true u in
  let u := set_Status UserStatusActive u in
  let u := set_VerificationToken EmptyString u in
  now <- time_Now ;;
  ret (set_UpdatedAt now u).

(** [(u *User) UpgradeToSeller(businessName, businessAddress) error]:
    the user as the call leaves it, together with the returned error. *)
Definition UpgradeToSeller (businessName businessAddress : string) (u : User)
  : M World (User * option error) :=
  if String.eqb (Role u) UserRoleSeller then
    ret (u, Some (Domain (errors.ValidationError "user is already a seller")))
  else if negb (EmailVerified u) then
    ret (u, Some (Domain (errors.ValidationError
                            "email must be verified to become a seller")))
  else
    let u := set_Role UserRoleSeller u in
    spID <- uuid_New ;;
    spCreated <- time_Now ;;
    spUpdated <- time_Now ;;
    let u := set_SellerProfile
               (Some {| sp_ID := spID;
                        sp_UserID := ID u;
                        sp_BusinessName := businessName;
                        sp_BusinessAddress := businessAddress;
                        sp_BusinessPhone := EmptyString;
                        sp_BusinessEmail := EmptyString;
                        sp_TaxNumber := EmptyString;
                        sp_VerificationStatus := VerificationStatusPending;
                        sp_VerificationNotes := EmptyString;
                        sp_Rating := float64_zero;
                        sp_TotalReviews := 0;
                        sp_CreatedAt := spCreated;
                        sp_UpdatedAt := spUpdated |}) u in
    now <- time_Now ;;
    ret (set_UpdatedAt now u, None).

(** [(u *User) Suspend(reason)] *)
Definition Suspend (reason : string) (u : User) : M World User :=
  let u := set_Status UserStatusSuspended u in
  now <- time_Now ;;
  ret (set_UpdatedAt now u).

(** [(u *User) Activate()] *)
Definition Activate (u : User) : M World User :=
  let u := set_Status UserStatusActive u in
  now <- time_Now ;;
  ret (set_UpdatedAt now u).

(** [(u *User) UpdateLastLogin()] *)
Definition UpdateLastLogin (u : User) : M World User :=
  now <- time_Now ;;
  let u := set_LastLoginAt (Some now) u in
  now' <- time_Now ;;
  ret (set_UpdatedAt now' u).

Definition FullName (u : User) : string :=
  FirstName u ++ " " ++ LastName u.

Definition IsActive (u : User) : bool := String.eqb (Status u) UserStatusActive.

Definition IsSeller (u : User) : bool := String.eqb (Role u) UserRoleSeller.

Definition IsVerifiedSeller (u : User) : bool :=
  IsSeller u &&
  match SellerProfile_ u with
  | Some p => String.eqb (sp_VerificationStatus p) VerificationStatusApproved
  | None => false
  end.

(** Event types (events.go of the package). *)
Definition UserRegisteredEvent : string := "user.registered".
Definition UserEmailVerifiedEvent : string := "user.email_verified".
Definition UserUpgradedToSellerEvent : string := "user.upgraded_to_seller".
Definition SellerVerifiedEvent : string := "seller.verified".
Definition UserSuspendedEvent : string := "user.suspended".
Definition UserActivatedEvent : string := "user.activated".
Definition UserLoggedInEvent : string := "user.logged_in".

Record UserRegistered := mkUserRegistered {
  ur_UserID : string;
  ur_Email : string;
  ur_FirstName : string;
  ur_LastName : string;
  ur_Role : UserRole;
  ur_VerificationToken : string;
  ur_Timestamp : Time
}.

Record UserEmailVerified := mkUserEmailVerified {
  uev_UserID : string;
  uev_Email : string;
  uev_Timestamp : Time
}.

Record UserUpgradedToSeller := mkUserUpgradedToSeller {
  uus_UserID : string;
  uus_Email : string;
  uus_BusinessName : string;
  uus_Timestamp : Time
}.

Record UserLoggedIn := mkUserLoggedIn {
  uli_UserID : string;
  uli_Email : string;
  uli_Timestamp : Time
}.

(** [(u *User) ValidatePassword(password) error], over
    [bcrypt.CompareHashAndPassword(hash, password)]. *)
Definition ValidatePassword
  (CompareHashAndPassword : string -> string -> option error)
  (u : User) (password : string) : option error :=
  CompareHashAndPassword (PasswordHash u) password.

(** The mutating methods of [*User], as one command type. *)
Inductive Op : Type :=
| OpVerifyEmail
| OpUpgradeToSeller (businessName businessAddress : string)
| OpSuspend (reason : string)
| OpActivate
| OpUpdateLastLogin.

Definition apply (op : Op) (u : User) : M World User :=
  match op with
  | OpVerifyEmail => VerifyEmail u
  | OpUpgradeToSeller businessName businessAddress =>
      r <- UpgradeToSeller businessName businessAddress u ;; ret (fst r)
  | OpSuspend reason => Suspend reason u
  | OpActivate => Activate u
  | OpUpdateLastLogin => UpdateLastLogin u
  end.

Fixpoint run (ops : list Op) (u : User) : M World User :=
  match ops with
  | [] => ret u
  | op :: rest => u' <- apply op u ;; run rest u'
  end.

(** The fields no business method is meant to write: who the user is. *)
Definition same_identity (u u' : User) : Prop :=
  ID u' = ID u /\
  Email u' = Email u /\
  PasswordHash u' = PasswordHash u /\
  FirstName u' = FirstName u /\
  LastName u' = LastName u /\
  PhoneNumber u' = PhoneNumber u /\
  Avatar u' = Avatar u /\
  PhoneVerified u' = PhoneVerified u /\
  CreatedAt u' = CreatedAt u.

(** A seller has a profile, and a profile belongs to its user. *)
Definition seller_has_profile (u : User) : Prop :=
  (Role u = UserRoleSeller -> SellerProfile_ u <> None) /\
  (forall p, SellerProfile_ u = Some p -> sp_UserID p = ID u).

End domain.

(* ===================================================================== *)
(** ** internal/listings/domain *)
(* ===================================================================== *)

Module listings.

Definition ListingStatus := string.
Definition ListingStatusDraft : ListingStatus := "draft".
Definition ListingStatusActive : ListingStatus := "active".
Definition ListingStatusInactive : ListingStatus := "inactive".
Definition ListingStatusSold : ListingStatus := "sold".
Definition ListingStatusExpired : ListingStatus := "expired".

Definition Condition := string.

#[warnings="-register-all"]
Inductive Category : Type := mkCategory {
  cat_ID : string;
  cat_Name : string;
  cat_Description : string;
  cat_ParentID : option string;
  cat_Parent : option Category;
  cat_Children : list Category;
  cat_ImageURL : string;
  cat_IsActive : bool;
  cat_CreatedAt : Time;
  cat_UpdatedAt : Time
}.

(** The zero value of the struct. *)
Definition zeroCategory : Category :=
  mkCategory EmptyString EmptyString EmptyString None None [] EmptyString
    false 0 0.

Record Location := mkLocation {
  Region : string;
  City : string;
  Area : string;
  Latitude : float64;
  Longitude : float64
}.

Record ListingImage := mkListingImage {
  img_ID : string;
  img_ListingID : string;
  img_URL : string;
  img_Caption : string;
  img_Order : Z;
  img_CreatedAt : Time
}.

Record ListingAttribute := mkListingAttribute {
  attr_ID : string;
  attr_ListingID : string;
  attr_Key : string;
  attr_Value : string;
  attr_CreatedAt : Time
}.

Record ListingTag := mkListingTag {
  tag_ID : string;
  tag_Name : string;
  tag_Color : string;
  tag_CreatedAt : Time
}.

(** The listing aggregate root, field for field. *)
Record Listing := mkListing {
  ID : string;
  SellerID : string;
  CategoryID : string;
  Category_ : Category;
  Title : string;
  Description : string;
  Price : float64;
  Currency : string;
  Condition_ : Condition;
  Status : ListingStatus;
  Location_ : Location;
  Images : list ListingImage;
  Attributes : list ListingAttribute;
  Tags : list ListingTag;
  ViewsCount : Z;
  FavoritesCount : Z;
  IsNegotiable : bool;
  IsPromoted : bool;
  PromotedUntil : option Time;
  ExpiresAt : Time;
  CreatedAt : Time;
  UpdatedAt : Time
}.

Definition set_Status (v : ListingStatus) (l : Listing) : Listing :=
  mkListing (ID l) (SellerID l) (CategoryID l) (Category_ l) (Title l)
    (Description l) (Price l) (Currency l) (Condition_ l) v
    (Location_ l) (Images l) (Attributes l) (Tags l) (ViewsCount l)
    (FavoritesCount l) (IsNegotiable l) (IsPromoted l) (PromotedUntil l)
    (ExpiresAt l) (CreatedAt l) (UpdatedAt l).

Definition set_Images (v : list ListingImage) (l : Listing) : Listing :=
  mkListing (ID l) (SellerID l) (CategoryID l) (Category_ l) (Title l)
    (Description l) (Price l) (Currency l) (Condition_ l) (Status l)
    (Location_ l) v (Attributes l) (Tags l) (ViewsCount l)
    (FavoritesCount l) (IsNegotiable l) (IsPromoted l) (PromotedUntil l)
    (ExpiresAt l) (CreatedAt l) (UpdatedAt l).

Definition set_Attributes (v : list ListingAttribute) (l : Listing) : Listing :=
  mkListing (ID l) (SellerID l) (CategoryID l) (Category_ l) (Title l)
    (Description l) (Price l) (Currency l) (Condition_ l) (Status l)
    (Location_ l) (Images l) v (Tags l) (ViewsCount l)
    (FavoritesCount l) (IsNegotiable l) (IsPromoted l) (PromotedUntil l)
    (ExpiresAt l) (CreatedAt l) (UpdatedAt l).

Definition set_ViewsCount (v : Z) (l : Listing) : Listing :=
  mkListing (ID l) (SellerID l) (CategoryID l) (Category_ l) (Title l)
    (Description l) (Price l) (Currency l) (Condition_ l) (Status l)
    (Location_ l) (Images l) (Attributes l) (Tags l) v
    (FavoritesCount l) (IsNegotiable l) (IsPromoted l) (PromotedUntil l)
    (ExpiresAt l) (CreatedAt l) (UpdatedAt l).

Definition set_FavoritesCount (v : Z) (l : Listing) : Listing :=
  mkListing (ID l) (SellerID l) (CategoryID l) (Category_ l) (Title l)
    (Description l) (Price l) (Currency l) (Condition_ l) (Status l)
    (Location_ l) (Images l) (Attributes l) (Tags l) (ViewsCount l)
    v (IsNegotiable l) (IsPromoted l) (PromotedUntil l)
    (ExpiresAt l) (CreatedAt l) (UpdatedAt l).

Definition set_Promotion (p : bool) (until : option Time) (l : Listing)
  : Listing :=
  mkListing (ID l) (SellerID l) (CategoryID l) (Category_ l) (Title l)
    (Description l) (Price l) (Currency l) (Condition_ l) (Status l)
    (Location_ l) (Images l) (Attributes l) (Tags l) (ViewsCount l)
    (FavoritesCount l) (IsNegotiable l) p until
    (ExpiresAt l) (CreatedAt l) (UpdatedAt l).

Definition set_UpdatedAt (v : Time) (l : Listing) : Listing :=
  mkListing (ID l) (SellerID l) (CategoryID l) (Category_ l) (Title l)
    (Description l) (Price l) (Currency l) (Condition_ l) (Status l)
    (Location_ l) (Images l) (Attributes l) (Tags l) (ViewsCount l)
    (FavoritesCount l) (IsNegotiable l) (IsPromoted l) (PromotedUntil l)
    (ExpiresAt l) (CreatedAt l) v.

Local Open Scope go_scope.

(** [NewListing].  [price <= 0] is the float64 comparison; the expiry is
    [time.Now().AddDate(0, 0, 30)], thirty days of twenty-four hours. *)
Definition NewListing (sellerID categoryID title description : string)
  (price : float64) (condition : Condition) (location : Location)
  : M World (Listing + error) :=
  if is_empty sellerID then
    ret (inr (Domain (errors.ValidationError "seller ID is required")))
  else if is_empty categoryID then
    ret (inr (Domain (errors.ValidationError "category ID is required")))
  else if is_empty title then
    ret (inr (Domain (errors.ValidationError "title is required")))
  else if float64_leb price float64_zero then
    ret (inr (Domain (errors.ValidationError "price must be greater than 0")))
  else
    now <- time_Now ;;
    let expiresAt := now + 30 * 24 * Hour in
    id <- uuid_New ;;
    createdAt <- time_Now ;;
    updatedAt <- time_Now ;;
    ret (inl {| ID := id;
                SellerID := sellerID;
                CategoryID := categoryID;
                Category_ := zeroCategory;
                Title := title;
                Description := description;
                Price := price;
                Currency := "GHS";
                Condition_ := condition;
                Status := ListingStatusDraft;
                Location_ := location;
                Images := [];
                Attributes := [];
                Tags := [];
                ViewsCount := 0;
                FavoritesCount := 0;
                IsNegotiable := true;
                IsPromoted := false;
                PromotedUntil := None;
                ExpiresAt := expiresAt;
                CreatedAt := createdAt;
                UpdatedAt := updatedAt |}).

(** [(l *Listing) Activate() error] *)
Definition Activate (l : Listing) : M World (Listing * option error) :=
  if String.eqb (Status l) ListingStatusSold then
    ret (l, Some (Domain (errors.ValidationError "cannot activate sold listing")))
  else
    let l := set_Status ListingStatusActive l in
    now <- time_Now ;;
    ret (set_UpdatedAt now l, None).

Definition Deactivate (l : Listing) : M World Listing :=
  let l := set_Status ListingStatusInactive l in
  now <- time_Now ;;
  ret (set_UpdatedAt now l).

Definition MarkAsSold (l : Listing) : M World Listing :=
  let l := set_Status ListingStatusSold l in
  now <- time_Now ;;
  ret (set_UpdatedAt now l).

(** [l.ViewsCount++] on an [int]. *)
Definition IncrementViews (l : Listing) : M World Listing :=
  let l := set_ViewsCount (wrap_int (ViewsCount l + 1)) l in
  now <- time_Now ;;
  ret (set_UpdatedAt now l).

(** [l.FavoritesCount++] on an [int]. *)
Definition IncrementFavorites (l : Listing) : M World Listing :=
  let l := set_FavoritesCount (wrap_int (FavoritesCount l + 1)) l in
  now <- time_Now ;;
  ret (set_UpdatedAt now l).

(** [if l.FavoritesCount > 0 { l.FavoritesCount--; ... }] *)
Definition DecrementFavorites (l : Listing) : M World Listing :=
  if 0 <? FavoritesCount l then
    let l := set_FavoritesCount (wrap_int (FavoritesCount l - 1)) l in
    now <- time_Now ;;
    ret (set_UpdatedAt now l)
  else ret l.

Definition AddImage (url caption : string) (l : Listing) : M World Listing :=
  id <- uuid_New ;;
  createdAt <- time_Now ;;
  let image := {| img_ID := id;
                  img_ListingID := ID l;
                  img_URL := url;
                  img_Caption := caption;
                  img_Order := Z.of_nat (List.length (Images l));
                  img_CreatedAt := createdAt |} in
  let l := set_Images (Images l ++ [image]) l in
  now <- time_Now ;;
  ret (set_UpdatedAt now l).

Definition AddAttribute (key value : string) (l : Listing) : M World Listing :=
  id <- uuid_New ;;
  createdAt <- time_Now ;;
  let attribute := {| attr_ID := id;
                      attr_ListingID := ID l;
                      attr_Key := key;
                      attr_Value := value;
                      attr_CreatedAt := createdAt |} in
  let l := set_Attributes (Attributes l ++ [attribute]) l in
  now <- time_Now ;;
  ret (set_UpdatedAt now l).

Definition Promote (duration : Duration) (l : Listing) : M World Listing :=
  now <- time_Now ;;
  let promotedUntil := now + duration in
  let l := set_Promotion true (Some promotedUntil) l in
  now' <- time_Now ;;
  ret (set_UpdatedAt now' l).

Definition IsExpired (l : Listing) : M World bool :=
  now <- time_Now ;;
  ret (ExpiresAt l <? now).

Definition IsActive (l : Listing) : M World bool :=
  if String.eqb (Status l) ListingStatusActive then
    expired <- IsExpired l ;;
    ret (negb expired)
  else ret false.

(** The mutating methods of [*Listing], as one command type, so that
    statements can range over every operation and over call sequences. *)
Inductive Op : Type :=
| OpActivate
| OpDeactivate
| OpMarkAsSold
| OpIncrementViews
| OpIncrementFavorites
| OpDecrementFavorites
| OpAddImage (url caption : string)
| OpAddAttribute (key value : string)
| OpPromote (duration : Duration).

Definition apply (op : Op) (l : Listing) : M World Listing :=
  match op with
  | OpActivate => r <- Activate l ;; ret (fst r)
  | OpDeactivate => Deactivate l
  | OpMarkAsSold => MarkAsSold l
  | OpIncrementViews => IncrementViews l
  | OpIncrementFavorites => IncrementFavorites l
  | OpDecrementFavorites => DecrementFavorites l
  | OpAddImage url caption => AddImage url caption l
  | OpAddAttribute key value => AddAttribute key value l
  | OpPromote duration => Promote duration l
  end.

Fixpoint run (ops : list Op) (l : Listing) : M World Listing :=
  match ops with
  | [] => ret l
  | op :: rest => l' <- apply op l ;; run rest l'
  end.

Definition is_increment (op : Op) : bool :=
  match op with
  | OpIncrementFavorites => true
  | _ => false
  end.

(** How many times a call sequence increments the favourites counter. *)
Definition increments (ops : list Op) : Z :=
  Z.of_nat (List.length (filter is_increment ops)).

(** The images carry the positions [n], [n+1], ... in their [Order]. *)
Fixpoint ordered_from (n : Z) (images : list ListingImage) : Prop :=
  match images with
  | [] => True
  | image :: rest => img_Order image = n /\ ordered_from (n + 1) rest
  end.

(** Every image and attribute names the listing it hangs on. *)
Definition owns_its_parts (l : Listing) : Prop :=
  Forall (fun image => img_ListingID image = ID l) (Images l) /\
  Forall (fun attribute => attr_ListingID attribute = ID l) (Attributes l).

(** The fields no operation is meant to write: what is on offer. *)
Definition same_offer (l l' : Listing) : Prop :=
  ID l' = ID l /\
  SellerID l' = SellerID l /\
  CategoryID l' = CategoryID l /\
  Title l' = Title l /\
  Description l' = Description l /\
  Price l' = Price l /\
  Currency l' = Currency l /\
  Condition_ l' = Condition_ l /\
  Location_ l' = Location_ l /\
  Tags l' = Tags l /\
  IsNegotiable l' = IsNegotiable l /\
  ExpiresAt l' = ExpiresAt l /\
  CreatedAt l' = CreatedAt l.

End listings.

(* ===================================================================== *)
(** ** pkg/events *)
(* ===================================================================== *)

Module events.

(** [Event]: the envelope.  [Data] is a [json.RawMessage], [Metadata] a
    [map[string]string]. *)
Record Event := mkEvent {
  ID : string;
  Type_ : string;
  AggregateID : string;
  Data : bytes;
  Metadata : list (string * string);
  Timestamp : Time
}.

(** [var event Event] *)
Definition zeroEvent : Event :=
  mkEvent EmptyString EmptyString EmptyString [] [] 0.

Definition set_ID (v : string) (e : Event) : Event :=
  mkEvent v (Type_ e) (AggregateID e) (Data e) (Metadata e) (Timestamp e).

Definition set_Timestamp (v : Time) (e : Event) : Event :=
  mkEvent (ID e) (Type_ e) (AggregateID e) (Data e) (Metadata e) v.

(** encoding/json, as the interface the package uses: [json.Marshal(v)]
    and [json.Unmarshal(data, &v)]; the latter is given the value [v]
    holds before the call and yields the value it holds afterwards. *)
Class JSON (A : Type) : Type := {
  Marshal : A -> bytes + error;
  Unmarshal : bytes -> A -> A + error
}.

(** [context.Context], reduced to what the package sets: the deadline,
    as the time allowed from the moment the context is made. *)
Record Context := mkContext {
  deadline : option Duration
}.

Definition Background : Context := {| deadline := None |}.

Definition WithTimeout (parent : Context) (d : Duration) : Context :=
  match deadline parent with
  | None => {| deadline := Some d |}
  | Some p => {| deadline := Some (Z.min p d) |}
  end.

(** What is observed of one handler call: how long it ran before it
    returned, and the error it returned ([None] is Go's [nil]). *)
Record Return := mkReturn {
  elapsed : Duration;
  err : option error
}.

(** [type EventHandler func(ctx context.Context, event *Event) error] *)
Definition EventHandler : Type := Context -> Event -> Return.

(** [nats.Msg] *)
Record Msg := mkMsg {
  Subject : string;
  msg_Data : bytes
}.

(** The answer the subscription callback gives the server for a message:
    [msg.Ack()] or [msg.Nak()]. *)
Inductive Reply : Type := Ack | Nak.

(** What one run of the subscription callback did: its answer, and the
    handler call it made, if it made one. *)
Record Handling := mkHandling {
  reply : Reply;
  call : option Return
}.

Record PubAck := mkPubAck {
  Stream : string;
  Sequence : Z
}.

(** [nats.PubAckFuture]: the broker's answer to an asynchronous publish,
    available only after [PublishAsync] has returned. *)
Inductive PubAckFuture : Type :=
| Future (answer : PubAck + error).

(** A durable consumer bound by [js.Subscribe]. *)
Record Consumer := mkConsumer {
  c_subject : string;
  c_durable : string;
  c_callback : Msg -> Handling
}.

(** The JetStream context [eb.js].  The client and the server are not
    part of the repository; they appear through what they answer:
    - [publish_fault]: the error [PublishAsync] returns at once, if any
      (closed connection, stalled publish window);
    - [broker]: the server's answer to a write, delivered through the
      future;
    - [subscribe_fault]: the error [Subscribe] returns, if any, given
      the consumers already bound;
    and through what the client holds: the messages handed to it and the
    consumers bound so far. *)
Record JetStream := mkJetStream {
  publish_fault : string -> bytes -> option error;
  broker : string -> bytes -> PubAck + error;
  subscribe_fault : string -> string -> list Consumer -> option error;
  outbox : list (string * bytes);
  consumers : list Consumer
}.

(** [js.PublishAsync(subject, data) (PubAckFuture, error)] *)
Definition PublishAsync (subject : string) (data : bytes)
  : M JetStream (option PubAckFuture * option error) :=
  fun j =>
    match publish_fault j subject data with
    | Some e => ((None, Some e), j)
    | None =>
        ((Some (Future (broker j subject data)), None),
         {| publish_fault := publish_fault j;
            broker := broker j;
            subscribe_fault := subscribe_fault j;
            outbox := outbox j ++ [(subject, data)];
            consumers := consumers j |})
    end.

(** [js.Subscribe(subject, cb, nats.Durable(durable))] *)
Definition js_Subscribe (subject : string) (cb : Msg -> Handling)
  (durable : string) : M JetStream (option error) :=
  fun j =>
    match subscribe_fault j subject durable (consumers j) with
    | Some e => (Some e, j)
    | None =>
        (None,
         {| publish_fault := publish_fault j;
            broker := broker j;
            subscribe_fault := subscribe_fault j;
            outbox := outbox j;
            consumers := consumers j ++ [mkConsumer subject durable cb] |})
    end.

(** [NATSEventBus]: the JetStream context, whether [conn] was closed, and
    the world the bus draws identifiers and clock readings from. *)
Record NATSEventBus := mkNATSEventBus {
  js : JetStream;
  closed : bool;
  env : World
}.

Definition with_env {A : Type} (c : M World A) : M NATSEventBus A :=
  fun eb => let (a, w) := c (env eb) in
            (a, {| js := js eb; closed := closed eb; env := w |}).

Definition with_js {A : Type} (c : M JetStream A) : M NATSEventBus A :=
  fun eb => let (a, j) := c (js eb) in
            (a, {| js := j; closed := closed eb; env := env eb |}).

Local Open Scope go_scope.

(** The opening lines of [Publish] ("Set event metadata"): an identifier
    if the event has none, the time if its timestamp is zero. *)
Definition stamp (event : Event) : M World Event :=
  event <- (if is_empty (ID event)
            then id <- uuid_New ;; ret (set_ID id event)
            else ret event) ;;
  if IsZero (Timestamp event)
  then now <- time_Now ;; ret (set_Timestamp now event)
  else ret event.

Section Bus.

Context {json_event : JSON Event}.

(** [(eb *NATSEventBus) Publish(ctx, event) error].  The body never reads
    [ctx], so it is not a parameter here.  The event is passed by
    pointer: the result carries the event as the call leaves it.  The
    future [PublishAsync] returns is dropped ([_, err = ...]).  Log lines
    are left out throughout: they decide nothing. *)
Definition NATSEventBus_Publish (event : Event)
  : M NATSEventBus (Event * option error) :=
  event <- with_env (stamp event) ;;
  match Marshal event with
  | inr e => ret (event, Some e)
  | inl data =>
      let subject := "events." ++ Type_ event in
      r <- with_js (PublishAsync subject data) ;;
      match snd r with
      | Some e => ret (event, Some e)
      | None => ret (event, None)
      end
  end.

(** The callback [Subscribe] hands to [js.Subscribe]. *)
Definition on_message (handler : EventHandler) (msg : Msg) : Handling :=
  match Unmarshal (msg_Data msg) zeroEvent with
  | inr _ => {| reply := Nak; call := None |}
  | inl event =>
      let ctx := WithTimeout Background (30 * Second) in
      let r := handler ctx event in
      match err r with
      | Some _ => {| reply := Nak; call := Some r |}
      | None => {| reply := Ack; call := Some r |}
      end
  end.

(** [(eb *NATSEventBus) Subscribe(eventType, handler) error] *)
Definition NATSEventBus_Subscribe (eventType : string) (handler : EventHandler)
  : M NATSEventBus (option error) :=
  let subject := "events." ++ eventType in
  r <- with_js (js_Subscribe subject (on_message handler)
                  ("dongome-" ++ eventType)) ;;
  match r with
  | Some e => ret (Some e)
  | None => ret None
  end.

(** [(eb *NATSEventBus) Close() error] *)
Definition NATSEventBus_Close : M NATSEventBus (option error) :=
  fun eb => (None, {| js := js eb; closed := true; env := env eb |}).

End Bus.



Definition with_broker (answer : string -> bytes -> PubAck + error)
  (eb : NATSEventBus) : NATSEventBus :=
  {| js := {| publish_fault := publish_fault (js eb);
              broker := answer;
              subscribe_fault := subscribe_fault (js eb);
              outbox := outbox (js eb);
              consumers := consumers (js eb) |};
     closed := closed eb;
     env := env eb |}.

Definition honours_deadline (handler : EventHandler) : Prop :=
  forall ctx event d,
    deadline ctx = Some d ->
    d < elapsed (handler ctx event) ->
    err (handler ctx event) <> None.

(** [type EventBus interface] *)
Class EventBus (B : Type) : Type := {
  Publish : Event -> M B (Event * option error);
  Subscribe : string -> EventHandler -> M B (option error);
  Close : M B (option error)
}.

#[export] Instance NATSEventBus_EventBus {json_event : JSON Event}
  : EventBus NATSEventBus := {
  Publish := NATSEventBus_Publish;
  Subscribe := NATSEventBus_Subscribe;
  Close := NATSEventBus_Close
}.

(** [NewEvent(eventType, aggregateID, data)] *)
Definition NewEvent {A : Type} {json_data : JSON A}
  (eventType aggregateID : string) (data : A) : M World (Event + error) :=
  match Marshal data with
  | inr e => ret (inr e)
  | inl dataBytes =>
      id <- uuid_New ;;
      now <- time_Now ;;
      ret (inl {| ID := id;
                  Type_ := eventType;
                  AggregateID := aggregateID;
                  Data := dataBytes;
                  Metadata := [];
                  Timestamp := now |})
  end.

(** [ParseEventData(event, target)]: the value [target] holds after the
    call, or the error. *)
Definition ParseEventData {A : Type} {json_data : JSON A}
  (event : Event) (target : A) : A + error :=
  Unmarshal (Data event) target.

(** *** Delivery by the broker *)

(** Modelled from the spec: the life of one envelope at one durable
    consumer, kept by the NATS server and not by the repository.
    "PENDING_DELIVERY -> IN_FLIGHT (timeout clock started) ->
    {ACKNOWLEDGED (terminal) | REDELIVER -> PENDING_DELIVERY}": an
    acknowledged envelope is done, one answered with [Nak] is scheduled
    for redelivery. *)
Inductive DeliveryState : Type :=
| PENDING_DELIVERY
| IN_FLIGHT
| ACKNOWLEDGED
| REDELIVER.

Definition settle (r : Reply) : DeliveryState :=
  match r with
  | Ack => ACKNOWLEDGED
  | Nak => REDELIVER
  end.

(** Positions, in binding order, of the consumers bound to [subject]
    under the durable name [durable]. *)
Fixpoint bound_from (n : nat) (subject durable : string) (cs : list Consumer)
  : list nat :=
  match cs with
  | [] => []
  | c :: rest =>
      if String.eqb (c_subject c) subject && String.eqb (c_durable c) durable
      then n :: bound_from (S n) subject durable rest
      else bound_from (S n) subject durable rest
  end.

Definition bound_to (subject durable : string) (cs : list Consumer) : list nat :=
  bound_from 0%nat subject durable cs.

(** The durable names that have a consumer on [subject], each once. *)
Definition durables_on (subject : string) (cs : list Consumer) : list string :=
  nodup string_dec
    (map c_durable (filter (fun c => String.eqb (c_subject c) subject) cs)).

(** Modelled from the spec: the broker's delivery rule, which lives in the
    NATS server and not in the repository.  "Multiple independent durable
    names on the same topic each receive their own full copy of every
    envelope (fan-out); two handlers registered under the same durable
    name compete for messages (load-balanced, not fan-out)."  One copy of
    a message goes to each durable name on its subject; among the
    consumers bound under that name, [choose] picks the one that gets it.
    The result lists the positions of the consumers the message reaches. *)
Definition receivers (choose : string -> list nat -> nat) (subject : string)
  (cs : list Consumer) : list nat :=
  flat_map
    (fun d =>
       match bound_to subject d cs with
       | [] => []
       | i :: rest =>
           [nth (Nat.modulo (choose d (i :: rest)) (List.length (i :: rest)))
                (i :: rest) i]
       end)
    (durables_on subject cs).

(** *** Start-up *)





Definition ErrStreamNotFound : error := Foreign "nats: stream not found".



End events.

(* ===================================================================== *)
(** ** internal/users/app *)
(* ===================================================================== *)

Module app.

Import domain.

Record RegisterUserCommand := mkRegisterUserCommand {
  cmd_Email : string;
  cmd_Password : string;
  cmd_FirstName : string;
  cmd_LastName : string
}.

Record UpgradeToSellerCommand := mkUpgradeToSellerCommand {
  cmd_UserID : string;
  cmd_BusinessName : string;
  cmd_BusinessAddress : string
}.

(** [type UserRepository interface].  [Save] and [Update] receive the
    user by pointer and yield it as the call leaves it; the finders answer
    with a user or with an error, as [UserGORMRepository] does. *)
Class UserRepository (R : Type) : Type := {
  Save : User -> M R (User * option error);
  FindByID : string -> M R (User + error);
  FindByEmail : string -> M R (User + error);
  FindByVerificationToken : string -> M R (User + error);
  Update : User -> M R (User * option error);
  Delete : string -> M R (option error)
}.

(** The calls a use case makes on its two collaborators that change
    something outside the process, with what each call answered:
    [CallSave] and [CallUpdate] carry the user as the call left it,
    [CallPublish] the event handed to the bus. *)
Inductive Call : Type :=
| CallSave (user : User) (answer : option error)
| CallUpdate (user : User) (answer : option error)
| CallPublish (event : events.Event) (answer : option error).

(** [UserService] with its surroundings: the repository, the event bus,
    the world, and the record of calls made so far.  The use cases pass
    their [ctx] on to [Publish] untouched; it is left out with it. *)
Record UserService (R B : Type) := mkUserService {
  userRepo : R;
  eventBus : B;
  world : World;
  calls : list Call
}.

Arguments mkUserService {R B}.
Arguments userRepo {R B}.
Arguments eventBus {R B}.
Arguments world {R B}.
Arguments calls {R B}.



Section Service.

Context {R B : Type}.
Context {repository : UserRepository R} {bus : events.EventBus B}.
Context {json_registered : events.JSON UserRegistered}.
Context {json_verified : events.JSON UserEmailVerified}.
Context {json_upgraded : events.JSON UserUpgradedToSeller}.

Definition in_repo {A : Type} (c : M R A) : M (UserService R B) A :=
  fun s => let (a, r) := c (userRepo s) in
           (a, mkUserService r (eventBus s) (world s) (calls s)).

Definition in_bus {A : Type} (c : M B A) : M (UserService R B) A :=
  fun s => let (a, b) := c (eventBus s) in
           (a, mkUserService (userRepo s) b (world s) (calls s)).

Definition in_world {A : Type} (c : M World A) : M (UserService R B) A :=
  fun s => let (a, w) := c (world s) in
           (a, mkUserService (userRepo s) (eventBus s) w (calls s)).

Definition record (c : Call) : M (UserService R B) unit :=
  fun s => (tt, mkUserService (userRepo s) (eventBus s) (world s)
                  (calls s ++ [c])).

Local Open Scope go_scope.

(** [s.userRepo.Save(user)] *)
Definition repo_Save (user : User) : M (UserService R B) (User * option error) :=
  r <- in_repo (Save user) ;;
  record (CallSave (fst r) (snd r)) ;;;
  ret r.

(** [s.userRepo.Update(user)] *)
Definition repo_Update (user : User)
  : M (UserService R B) (User * option error) :=
  r <- in_repo (Update user) ;;
  record (CallUpdate (fst r) (snd r)) ;;;
  ret r.

(** [s.eventBus.Publish(ctx, event)] *)
Definition bus_Publish (event : events.Event)
  : M (UserService R B) (option error) :=
  r <- in_bus (events.Publish event) ;;
  record (CallPublish event (snd r)) ;;;
  ret (snd r).

(** [(s *UserService) RegisterUser(ctx, cmd)], which returns the user
    and an error. *)
Definition RegisterUser (cmd : RegisterUserCommand)
  : M (UserService R B) (User + error) :=
  existing <- in_repo (FindByEmail (cmd_Email cmd)) ;;
  match existing with
  | inl _ =>
      ret (inr (Domain (errors.ConflictError
                          "user with this email already exists")))
  | inr _ =>
      created <- in_world (NewUser (cmd_Email cmd) (cmd_Password cmd)
                             (cmd_FirstName cmd) (cmd_LastName cmd)) ;;
      match created with
      | inr e => ret (inr e)
      | inl user =>
          saved <- repo_Save user ;;
          let user := fst saved in
          match snd saved with
          | Some e => ret (inr e)
          | None =>
              now <- in_world time_Now ;;
              built <- in_world
                (events.NewEvent UserRegisteredEvent (ID user)
                   {| ur_UserID := ID user;
                      ur_Email := Email user;
                      ur_FirstName := FirstName user;
                      ur_LastName := LastName user;
                      ur_Role := Role user;
                      ur_VerificationToken := VerificationToken user;
                      ur_Timestamp := now |}) ;;
              match built with
              | inr e => ret (inr e)
              | inl event =>
                  published <- bus_Publish event ;;
                  match published with
                  | Some _ => ret (inl user) (* empty branch: error dropped *)
                  | None => ret (inl user)
                  end
              end
          end
      end
  end.

(** [(s *UserService) VerifyEmail(ctx, token) error] *)
Definition VerifyEmail (token : string) : M (UserService R B) (option error) :=
  found <- in_repo (FindByVerificationToken token) ;;
  match found with
  | inr _ =>
      ret (Some (Domain (errors.NotFoundError "invalid verification token")))
  | inl user =>
      user <- in_world (domain.VerifyEmail user) ;;
      updated <- repo_Update user ;;
      let user := fst updated in
      match snd updated with
      | Some e => ret (Some e)
      | None =>
          now <- in_world time_Now ;;
          built <- in_world
            (events.NewEvent UserEmailVerifiedEvent (ID user)
               {| uev_UserID := ID user;
                  uev_Email := Email user;
                  uev_Timestamp := now |}) ;;
          match built with
          | inr e => ret (Some e)
          | inl event => bus_Publish event
          end
      end
  end.

(** [(s *UserService) UpgradeToSeller(ctx, cmd) error] *)
Definition UpgradeToSeller (cmd : UpgradeToSellerCommand)
  : M (UserService R B) (option error) :=
  found <- in_repo (FindByID (cmd_UserID cmd)) ;;
  match found with
  | inr _ => ret (Some (Domain (errors.NotFoundError "user not found")))
  | inl user =>
      upgraded <- in_world (domain.UpgradeToSeller (cmd_BusinessName cmd)
                              (cmd_BusinessAddress cmd) user) ;;
      let user := fst upgraded in
      match snd upgraded with
      | Some e => ret (Some e)
      | None =>
          updated <- repo_Update user ;;
          let user := fst updated in
          match snd updated with
          | Some e => ret (Some e)
          | None =>
              now <- in_world time_Now ;;
              built <- in_world
                (events.NewEvent UserUpgradedToSellerEvent (ID user)
                   {| uus_UserID := ID user;
                      uus_Email := Email user;
                      uus_BusinessName := cmd_BusinessName cmd;
                      uus_Timestamp := now |}) ;;
              match built with
              | inr e => ret (Some e)
              | inl event => bus_Publish event
              end
          end
      end
  end.

End Service.

(** The outside calls one use case may add to the record: none; or the
    one call that persists the user; or that call, answered with success,
    followed by one [Publish] of a fact of type [eventType] about the
    persisted user. *)
Definition persisted_then_published (persist : User -> option error -> Call)
  (eventType : string) (before after : list Call) : Prop :=
  after = before \/
  (exists u a, after = (before ++ [persist u a])%list) \/
  (exists u e a,
      after = (before ++ [persist u None; CallPublish e a])%list /\
      events.Type_ e = eventType /\
      events.AggregateID e = ID u).

Record LoginCommand := mkLoginCommand {
  login_Email : string;
  login_Password : string
}.

Section Login.

Context {R B : Type}.
Context {repository : UserRepository R} {bus : events.EventBus B}.
Context {json_logged_in : events.JSON UserLoggedIn}.
Context (CompareHashAndPassword : string -> string -> option error).

Local Open Scope go_scope.

(** [(s *UserService) LoginUser(ctx, cmd)], which returns the user and an
    error. *)
Definition LoginUser (cmd : LoginCommand) : M (UserService R B) (User + error) :=
  found <- in_repo (FindByEmail (login_Email cmd)) ;;
  match found with
  | inr _ => ret (inr (Domain (errors.UnauthorizedError "invalid credentials")))
  | inl user =>
      match ValidatePassword CompareHashAndPassword user (login_Password cmd) with
      | Some _ =>
          ret (inr (Domain (errors.UnauthorizedError "invalid credentials")))
      | None =>
          if negb (IsActive user) then
            ret (inr (Domain (errors.UnauthorizedError "account is not active")))
          else
            user <- in_world (UpdateLastLogin user) ;;
            updated <- repo_Update user ;;
            let user := fst updated in
            match snd updated with
            | Some e => ret (inr e)
            | None =>
                now <- in_world time_Now ;;
                built <- in_world
                  (events.NewEvent UserLoggedInEvent (ID user)
                     {| uli_UserID := ID user;
                        uli_Email := Email user;
                        uli_Timestamp := now |}) ;;
                match built with
                | inr e => ret (inr e)
                | inl event =>
                    published <- bus_Publish event ;;
                    match published with
                    | Some _ => ret (inl user) (* empty branch: error dropped *)
                    | None => ret (inl user)
                    end
                end
            end
      end
  end.

(** [(s *UserService) GetUser(ctx, userID)] *)
Definition GetUser (userID : string) : M (UserService R B) (User + error) :=
  in_repo (FindByID userID).

(** [(s *UserService) GetUserByEmail(ctx, email)] *)
Definition GetUserByEmail (email : string) : M (UserService R B) (User + error) :=
  in_repo (FindByEmail email).

End Login.

End app.

(* ===================================================================== *)
(** ** internal/users/infra: the HTTP handlers *)
(* ===================================================================== *)

Module infra.

Import domain.

(** The values the handlers put into a [gin.H]. *)
Inductive Value : Type :=
| VString (s : string)
| VBool (b : bool)
| VTime (t : Time)
| VOptTime (t : option Time)
| VSellerProfile (p : option SellerProfile).

(** What [c.JSON(status, body)] sends. *)
Record Response := mkResponse {
  status : Z;
  body : list (string * Value)
}.

(** The answer to a request whose body did not bind. *)
Definition bind_failure (e : error) : Response :=
  {| status := errors.StatusBadRequest;
     body := [("error", VString (error_text e))] |}.

(** The answer every handler gives to an error of the service: the type
    assertion of [err] to a domain error, and its two branches. *)
Definition service_failure (e : error) : Response :=
  match e with
  | Domain domainErr =>
      {| status := errors.HTTPStatusCode domainErr;
         body := [("error", VString (errors.Message domainErr));
                  ("code", VString (errors.Code domainErr))] |}
  | Foreign _ =>
      {| status := errors.StatusInternalServerError;
         body := [("error", VString "internal server error")] |}
  end.

Section Handlers.

Context {R B : Type}.
Context {repository : app.UserRepository R} {bus : events.EventBus B}.
Context {json_registered : events.JSON UserRegistered}.
Context {json_verified : events.JSON UserEmailVerified}.
Context {json_upgraded : events.JSON UserUpgradedToSeller}.
Context {json_logged_in : events.JSON UserLoggedIn}.
Context (CompareHashAndPassword : string -> string -> option error).

Local Open Scope go_scope.

(** [(h *UserHandler) RegisterUser(c)]; [bound] is what
    [c.ShouldBindJSON(&cmd)] made of the request body. *)
Definition RegisterUser (bound : app.RegisterUserCommand + error)
  : M (app.UserService R B) Response :=
  match bound with
  | inr e => ret (bind_failure e)
  | inl cmd =>
      r <- app.RegisterUser cmd ;;
      match r with
      | inr e => ret (service_failure e)
      | inl user =>
          ret {| status := errors.StatusCreated;
                 body := [("id", VString (ID user));
                          ("email", VString (Email user));
                          ("first_name", VString (FirstName user));
                          ("last_name", VString (LastName user));
                          ("status", VString (Status user));
                          ("role", VString (Role user));
                          ("email_verified", VBool (EmailVerified user));
                          ("phone_verified", VBool (PhoneVerified user));
                          ("created_at", VTime (CreatedAt user))] |}
      end
  end.

(** [(h *UserHandler) LoginUser(c)] *)
Definition LoginUser (bound : app.LoginCommand + error)
  : M (app.UserService R B) Response :=
  match bound with
  | inr e => ret (bind_failure e)
  | inl cmd =>
      r <- app.LoginUser CompareHashAndPassword cmd ;;
      match r with
      | inr e => ret (service_failure e)
      | inl user =>
          ret {| status := errors.StatusOK;
                 body := [("id", VString (ID user));
                          ("email", VString (Email user));
                          ("first_name", VString (FirstName user));
                          ("last_name", VString (LastName user));
                          ("status", VString (Status user));
                          ("role", VString (Role user));
                          ("email_verified", VBool (EmailVerified user));
                          ("phone_verified", VBool (PhoneVerified user));
                          ("last_login_at", VOptTime (LastLoginAt user));
                          ("seller_profile",
                           VSellerProfile (SellerProfile_ user))] |}
      end
  end.

(** [(h *UserHandler) VerifyEmail(c)]; [bound] is the token of the
    request. *)
Definition VerifyEmail (bound : string + error)
  : M (app.UserService R B) Response :=
  match bound with
  | inr e => ret (bind_failure e)
  | inl token =>
      r <- app.VerifyEmail token ;;
      match r with
      | Some e => ret (service_failure e)
      | None =>
          ret {| status := errors.StatusOK;
                 body := [("message", VString "email verified successfully")] |}
      end
  end.

(** [(h *UserHandler) UpgradeToSeller(c)]; [userID] is [c.Param("id")],
    which replaces the [UserID] of the bound command. *)
Definition UpgradeToSeller (userID : string)
  (bound : app.UpgradeToSellerCommand + error)
  : M (app.UserService R B) Response :=
  match bound with
  | inr e => ret (bind_failure e)
  | inl cmd =>
      let cmd := app.mkUpgradeToSellerCommand userID
                   (app.cmd_BusinessName cmd) (app.cmd_BusinessAddress cmd) in
      r <- app.UpgradeToSeller cmd ;;
      match r with
      | Some e => ret (service_failure e)
      | None =>
          ret {| status := errors.StatusOK;
                 body := [("message",
                           VString "successfully upgraded to seller")] |}
      end
  end.

(** [(h *UserHandler) GetUser(c)] *)
Definition GetUser (userID : string) : M (app.UserService R B) Response :=
  r <- app.GetUser userID ;;
  match r with
  | inr e => ret (service_failure e)
  | inl user =>
      ret {| status := errors.StatusOK;
             body := [("id", VString (ID user));
                      ("email", VString (Email user));
                      ("first_name", VString (FirstName user));
                      ("last_name", VString (LastName user));
                      ("phone_number", VString (PhoneNumber user));
                      ("avatar", VString (Avatar user));
                      ("status", VString (Status user));
                      ("role", VString (Role user));
                      ("email_verified", VBool (EmailVerified user));
                      ("phone_verified", VBool (PhoneVerified user));
                      ("last_login_at", VOptTime (LastLoginAt user));
                      ("created_at", VTime (CreatedAt user));
                      ("seller_profile",
                       VSellerProfile (SellerProfile_ user))] |}
  end.

End Handlers.

(** The statuses a handler of the package can answer with. *)
Definition handler_statuses : list Z :=
  [errors.StatusOK; errors.StatusCreated; errors.StatusBadRequest;
   errors.StatusUnauthorized; errors.StatusForbidden; errors.StatusNotFound;
   errors.StatusConflict; errors.StatusInternalServerError].

End infra.

(* ===================================================================== *)
(** ** cmd/worker: the background handlers *)
(* ===================================================================== *)

Module worker.

Import domain.

(** [var userData domain.UserRegistered] and its sibling. *)
Definition zeroUserRegistered : UserRegistered :=
  mkUserRegistered EmptyString EmptyString EmptyString EmptyString EmptyString
    EmptyString 0.

Definition zeroUserUpgradedToSeller : UserUpgradedToSeller :=
  mkUserUpgradedToSeller EmptyString EmptyString EmptyString 0.

Section Handlers.

Context {json_registered : events.JSON UserRegistered}.
Context {json_upgraded : events.JSON UserUpgradedToSeller}.

(** [handleUserRegisteredBackground]: the only wait is the
    [time.Sleep(100 * time.Millisecond)] after a successful parse. *)
Definition handleUserRegisteredBackground : events.EventHandler :=
  fun _ event =>
    match events.ParseEventData event zeroUserRegistered with
    | inr e => {| events.elapsed := 0; events.err := Some e |}
    | inl _ => {| events.elapsed := 100 * Millisecond; events.err := None |}
    end.

(** [handleUserUpgradedToSeller] *)
Definition handleUserUpgradedToSeller : events.EventHandler :=
  fun _ event =>
    match events.ParseEventData event zeroUserUpgradedToSeller with
    | inr e => {| events.elapsed := 0; events.err := Some e |}
    | inl _ => {| events.elapsed := 0; events.err := None |}
    end.

Local Open Scope go_scope.

(** [setupEventSubscriptions(eventBus)]: a failed subscription is logged
    and the next one is still made. *)
Definition setupEventSubscriptions {B : Type} {bus : events.EventBus B}
  : M B unit :=
  first <- events.Subscribe UserRegisteredEvent handleUserRegisteredBackground ;;
  second <- events.Subscribe UserUpgradedToSellerEvent
              handleUserUpgradedToSeller ;;
  ret tt.

End Handlers.

End worker.

(* ===================================================================== *)
(** ** Concrete surroundings for the closed examples

    The statements below are proved for every codec, repository, broker
    and world.  The closed examples need one of each; these stand in for
    the libraries at the inputs the examples use. *)
(* ===================================================================== *)

Module scenario.

Import domain.

Definition text (s : string) : bytes := list_byte_of_string s.

Definition same_text (data : bytes) (s : string) : bool :=
  String.eqb (string_of_list_byte data) s.

(** A world whose clock advances by one millisecond per reading and whose
    identifiers are lettered in the order they are drawn. *)
Definition world0 : World :=
  {| clock := fun n => Z.of_nat n * Millisecond + 1700000000 * Second;
     ticks := 0;
     ids := fun n =>
       nth n ["A-0000-4000-8000"; "B-0000-4000-8000"; "C-0000-4000-8000";
              "D-0000-4000-8000"; "E-0000-4000-8000"; "F-0000-4000-8000"]
         "Z-0000-4000-8000";
     drawn := 0;
     bcrypt := fun password => inl ("$2a$10$" ++ password) |}.

(** encoding/json on envelopes, at the payloads of the examples: the
    document [{}] decodes into the target and leaves it as it is, any
    other input of the examples is not JSON and is refused; encoding an
    envelope succeeds. *)
Definition json_event : events.JSON events.Event :=
  {| events.Marshal := fun e => inl (text ("{" ++ events.Type_ e ++ "}"));
     events.Unmarshal := fun data target =>
       if same_text data "{}" then inl target
       else inr (Foreign "invalid character looking for beginning of value") |}.


(** Encoders for the three facts of the service; decoding is not used by
    the service. *)
Definition json_registered : events.JSON UserRegistered :=
  {| events.Marshal := fun d => inl (text ("{" ++ ur_Email d ++ "}"));
     events.Unmarshal := fun _ _ => inr (Foreign "unexpected end of JSON input") |}.

Definition json_verified : events.JSON UserEmailVerified :=
  {| events.Marshal := fun d => inl (text ("{" ++ uev_Email d ++ "}"));
     events.Unmarshal := fun _ _ => inr (Foreign "unexpected end of JSON input") |}.

Definition json_upgraded : events.JSON UserUpgradedToSeller :=
  {| events.Marshal := fun d => inl (text ("{" ++ uus_BusinessName d ++ "}"));
     events.Unmarshal := fun _ _ => inr (Foreign "unexpected end of JSON input") |}.

(** A repository that keeps its rows in a list, answering as
    [UserGORMRepository] does: a missing row is a not-found error. *)
Definition find_row (p : User -> bool) (rows : list User) : User + error :=
  match find p rows with
  | Some u => inl u
  | None => inr (Domain (errors.NotFoundError "user not found"))
  end.

Definition rows_repository : app.UserRepository (list User) :=
  {| app.Save := fun u rows =>
       if existsb (fun r => String.eqb (Email r) (Email u)) rows
       then ((u, Some (Foreign "duplicate key value violates unique constraint")),
             rows)
       else ((u, None), (rows ++ [u])%list);
     app.FindByID := fun id rows =>
       (find_row (fun r => String.eqb (ID r) id) rows, rows);
     app.FindByEmail := fun email rows =>
       (find_row (fun r => String.eqb (Email r) email) rows, rows);
     app.FindByVerificationToken := fun token rows =>
       (find_row (fun r => String.eqb (VerificationToken r) token) rows, rows);
     app.Update := fun u rows =>
       if existsb (fun r => String.eqb (ID r) (ID u)) rows
       then ((u, None),
             map (fun r => if String.eqb (ID r) (ID u) then u else r) rows)
       else ((u, None), (rows ++ [u])%list);
     app.Delete := fun id rows =>
       (None, filter (fun r => negb (String.eqb (ID r) id)) rows) |}.

(** Three JetStream contexts with nothing bound and nothing sent:
    a healthy one, one whose connection is closed, and one whose server
    refuses every write after the client has taken it. *)
Definition js_healthy : events.JetStream :=
  {| events.publish_fault := fun _ _ => None;
     events.broker := fun _ _ => inl (events.mkPubAck "DOMAIN_EVENTS" 1);
     events.subscribe_fault := fun _ _ _ => None;
     events.outbox := [];
     events.consumers := [] |}.

Definition js_closed : events.JetStream :=
  {| events.publish_fault := fun _ _ => Some (Foreign "nats: connection closed");
     events.broker := fun _ _ => inr (Foreign "nats: connection closed");
     events.subscribe_fault := fun _ _ _ => Some (Foreign "nats: connection closed");
     events.outbox := [];
     events.consumers := [] |}.

Definition js_refusing : events.JetStream :=
  {| events.publish_fault := fun _ _ => None;
     events.broker := fun _ _ => inr (Foreign "nats: no response from stream");
     events.subscribe_fault := fun _ _ _ => None;
     events.outbox := [];
     events.consumers := [] |}.

Definition bus_of (j : events.JetStream) : events.NATSEventBus :=
  {| events.js := j; events.closed := false; events.env := world0 |}.

Definition nats_bus : events.EventBus events.NATSEventBus :=
  @events.NATSEventBus_EventBus json_event.

(** Handlers.  [sleepy] works for a minute and never looks at its
    context; [punctual work] gives up with the context's error when the
    deadline comes before its work is done. *)
Definition sleepy : events.EventHandler :=
  fun _ _ => {| events.elapsed := 60 * Second; events.err := None |}.

Definition punctual (work : Duration) : events.EventHandler :=
  fun ctx _ =>
    match events.deadline ctx with
    | Some d =>
        if d <? work
        then {| events.elapsed := d;
                events.err := Some (Foreign "context deadline exceeded") |}
        else {| events.elapsed := work; events.err := None |}
    | None => {| events.elapsed := work; events.err := None |}
    end.

(** The two handlers of the demonstration, with the time each sleeps. *)
Definition notifications : events.EventHandler := punctual (500 * Millisecond).
Definition analytics : events.EventHandler := punctual (300 * Millisecond).

(** An envelope for John's registration, as [NewEvent] builds it. *)
Definition registered : events.Event :=
  {| events.ID := "C-0000-4000-8000";
     events.Type_ := "user.registered";
     events.AggregateID := "B-0000-4000-8000";
     events.Data := text "{test@example.com}";
     events.Metadata := [];
     events.Timestamp := 1700000000 * Second + 3 * Millisecond |}.

Definition msg_empty_object : events.Msg :=
  {| events.Subject := "events.user.registered";
     events.msg_Data := text "{}" |}.

Definition msg_garbage : events.Msg :=
  {| events.Subject := "events.user.registered";
     events.msg_Data := text "not json" |}.

(** Users. *)
Definition john_cmd : app.RegisterUserCommand :=
  {| app.cmd_Email := "test@example.com";
     app.cmd_Password := "password123";
     app.cmd_FirstName := "John";
     app.cmd_LastName := "Doe" |}.

(** John as [NewUser] makes him: a pending, unverified buyer. *)
Definition john : User :=
  {| ID := "B-0000-4000-8000";
     Email := "test@example.com";
     PasswordHash := "$2a$10$password123";
     FirstName := "John";
     LastName := "Doe";
     PhoneNumber := EmptyString;
     Avatar := EmptyString;
     Status := UserStatusPending;
     Role := UserRoleBuyer;
     EmailVerified := false;
     PhoneVerified := false;
     VerificationToken := "A-0000-4000-8000";
     LastLoginAt := None;
     CreatedAt := 1700000000 * Second;
     UpdatedAt := 1700000000 * Second + Millisecond;
     SellerProfile_ := None |}.

(** John after he has verified his email. *)
Definition john_verified : User :=
  set_UpdatedAt (1700000000 * Second)
    (set_VerificationToken EmptyString
       (set_Status UserStatusActive (set_EmailVerified true john))).

Definition service (rows : list User) (j : events.JetStream)
  : app.UserService (list User) events.NATSEventBus :=
  {| app.userRepo := rows;
     app.eventBus := bus_of j;
     app.world := world0;
     app.calls := [] |}.

Definition upgrade_cmd : app.UpgradeToSellerCommand :=
  {| app.cmd_UserID := "B-0000-4000-8000";
     app.cmd_BusinessName := "Test Business";
     app.cmd_BusinessAddress := "123 Business St" |}.

(** A listing, priced at 100 (the float64 [0x1.9p6]), whose favourites
    counter has reached the largest [int]. *)
Definition crowded : listings.Listing :=
  {| listings.ID := "A-0000-4000-8000";
     listings.SellerID := "B-0000-4000-8000";
     listings.CategoryID := "C-0000-4000-8000";
     listings.Category_ := listings.zeroCategory;
     listings.Title := "Bicycle";
     listings.Description := "Road bicycle";
     listings.Price := S754_finite false 7036874417766400 (-46);
     listings.Currency := "GHS";
     listings.Condition_ := "good";
     listings.Status := listings.ListingStatusActive;
     listings.Location_ :=
       listings.mkLocation "Greater Accra" "Accra" "Osu" float64_zero float64_zero;
     listings.Images := [];
     listings.Attributes := [];
     listings.Tags := [];
     listings.ViewsCount := 0;
     listings.FavoritesCount := MaxInt;
     listings.IsNegotiable := true;
     listings.IsPromoted := false;
     listings.PromotedUntil := None;
     listings.ExpiresAt := 1700000000 * Second + 30 * 24 * Hour;
     listings.CreatedAt := 1700000000 * Second;
     listings.UpdatedAt := 1700000000 * Second |}.

(** bcrypt's comparison, for the hashes [world0] makes. *)
Definition bcrypt_compare (hash password : string) : option error :=
  if String.eqb hash ("$2a$10$" ++ password) then None
  else Some (Foreign
    "crypto/bcrypt: hashedPassword is not the hash of the given password").

Definition json_logged_in : events.JSON UserLoggedIn :=
  {| events.Marshal := fun d => inl (text ("{" ++ uli_Email d ++ "}"));
     events.Unmarshal := fun _ _ => inr (Foreign "unexpected end of JSON input") |}.

End scenario.

(* ===================================================================== *)
(** * Properties *)
(* ===================================================================== *)

(** ** The user aggregate *)

Section UserFacts.

Import domain.

(** When [UpgradeToSeller] succeeds the user has become a seller with a
    pending profile. *)
Lemma UpgradeToSeller_success :
  forall businessName businessAddress u w u' w',
    UpgradeToSeller businessName businessAddress u w = ((u', None), w') ->
    Role u' = UserRoleSeller /\
    exists p, SellerProfile_ u' = Some p /\
              sp_UserID p = ID u /\
              sp_BusinessName p = businessName /\
              sp_BusinessAddress p = businessAddress /\
              sp_VerificationStatus p = VerificationStatusPending.
Proof.
  intros bn ba u w u' w' H.
  unfold UpgradeToSeller in H.
  destruct (String.eqb (Role u) UserRoleSeller); [discriminate H|].
  destruct (negb (EmailVerified u)); [discriminate H|].
  cbv [bind ret uuid_New time_Now] in H.
  inversion H; subst; clear H.
  split; [reflexivity|].
  eexists; split; [reflexivity|].
  repeat split.
Qed.

(** [UpgradeToSeller] fails exactly on sellers and on unverified users. *)
Lemma UpgradeToSeller_fails_iff :
  forall businessName businessAddress u w,
    snd (fst (UpgradeToSeller businessName businessAddress u w)) <> None <->
    (Role u = UserRoleSeller \/ EmailVerified u = false).
Proof.
  intros bn ba u w. unfold UpgradeToSeller.
  destruct (String.eqb_spec (Role u) UserRoleSeller) as [Hr | Hr].
  - cbn. split; [auto | discriminate].
  - destruct (EmailVerified u) eqn:Hv; cbn.
    + split; [intros H; exfalso; apply H; reflexivity|].
      intros [H | H]; [contradiction | discriminate].
    + split; [auto | discriminate].
Qed.

(** C9. Whenever [User.UpgradeToSeller] returns an error, the user is
    left exactly as it was: every field keeps its prior value (and no
    identifier or clock reading has been consumed). *)
Theorem UpgradeToSeller_error_leaves_user_unchanged :
  forall businessName businessAddress u w u' e w',
    UpgradeToSeller businessName businessAddress u w = ((u', Some e), w') ->
    u' = u /\ w' = w.
Proof.
  intros bn ba u w u' e w' H.
  unfold UpgradeToSeller in H.
  destruct (String.eqb (Role u) UserRoleSeller).
  - inversion H; subst; split; reflexivity.
  - destruct (negb (EmailVerified u)).
    + inversion H; subst; split; reflexivity.
    + cbv [bind ret uuid_New time_Now] in H. discriminate H.
Qed.

(** John has not verified his email: the upgrade is refused and John is
    untouched. *)
Lemma UpgradeToSeller_error_leaves_user_unchanged_witness :
  UpgradeToSeller "Test Business" "123 Business St" scenario.john
    scenario.world0
  = ((scenario.john,
      Some (Domain (errors.ValidationError
                      "email must be verified to become a seller"))),
     scenario.world0)
  /\ (scenario.john = scenario.john /\ scenario.world0 = scenario.world0).
Proof.
  split.
  - reflexivity.
  - apply (UpgradeToSeller_error_leaves_user_unchanged
             "Test Business" "123 Business St" scenario.john scenario.world0
             scenario.john
             (Domain (errors.ValidationError
                        "email must be verified to become a seller"))
             scenario.world0).
    reflexivity.
Defined.

End UserFacts.

(** ** The listing aggregate *)

Section ListingFacts.

Import listings.

Lemma wrap_int_id : forall z, MinInt <= z <= MaxInt -> wrap_int z = z.
Proof.
  intros z. unfold wrap_int, MinInt, MaxInt, int_bits.
  change (2 ^ (64 - 1)) with 9223372036854775808.
  change (2 ^ 64) with 18446744073709551616.
  intros Hz. rewrite Z.mod_small; lia.
Qed.

Lemma MaxInt_value : MaxInt = 9223372036854775807.
Proof. reflexivity. Qed.

Lemma MinInt_value : MinInt = -9223372036854775808.
Proof. reflexivity. Qed.

(** What each operation does to the favourites counter. *)
Lemma apply_FavoritesCount :
  forall op l w,
    FavoritesCount (fst (apply op l w)) =
    match op with
    | OpIncrementFavorites => wrap_int (FavoritesCount l + 1)
    | OpDecrementFavorites =>
        if 0 <? FavoritesCount l then wrap_int (FavoritesCount l - 1)
        else FavoritesCount l
    | _ => FavoritesCount l
    end.
Proof.
  intros op l w; destruct op; try reflexivity.
  - unfold apply, Activate.
    destruct (String.eqb (Status l) ListingStatusSold); reflexivity.
  - unfold apply, DecrementFavorites.
    destruct (0 <? FavoritesCount l); reflexivity.
Qed.

Lemma NewListing_FavoritesCount :
  forall sellerID categoryID title description price condition location w l w',
    NewListing sellerID categoryID title description price condition location w
    = (inl l, w') ->
    FavoritesCount l = 0.
Proof.
  intros sellerID categoryID title description price condition location
         w l w' H.
  unfold NewListing in H.
  destruct (is_empty sellerID); [discriminate H|].
  destruct (is_empty categoryID); [discriminate H|].
  destruct (is_empty title); [discriminate H|].
  destruct (float64_leb price float64_zero); [discriminate H|].
  cbv [bind ret uuid_New time_Now] in H.
  inversion H; reflexivity.
Qed.

Lemma apply_keeps_nonnegative :
  forall op l w,
    0 <= FavoritesCount l <= MaxInt ->
    (op = OpIncrementFavorites -> FavoritesCount l < MaxInt) ->
    0 <= FavoritesCount (fst (apply op l w)) <= MaxInt.
Proof.
  intros op l w Hl Hinc.
  rewrite apply_FavoritesCount.
  pose proof MinInt_value as Hmin.
  destruct op; try exact Hl.
  - specialize (Hinc eq_refl).
    rewrite wrap_int_id; lia.
  - destruct (0 <? FavoritesCount l) eqn:Hpos; [|exact Hl].
    apply Z.ltb_lt in Hpos.
    rewrite wrap_int_id; lia.
Qed.

Lemma increments_cons :
  forall op ops,
    increments (op :: ops) = (if is_increment op then 1 else 0) + increments ops.
Proof.
  intros op ops. unfold increments. cbn [filter].
  destruct (is_increment op); cbn [List.length]; lia.
Qed.

Lemma run_bounds :
  forall ops l w,
    0 <= FavoritesCount l ->
    FavoritesCount l + increments ops <= MaxInt ->
    0 <= FavoritesCount (fst (run ops l w)) <= FavoritesCount l + increments ops.
Proof.
  induction ops as [|op ops IH]; intros l w Hl Hb.
  - unfold increments in *; cbn in *. lia.
  - cbn [run]. unfold bind.
    destruct (apply op l w) as [l1 w1] eqn:Hop.
    assert (Hfc : FavoritesCount l1 = FavoritesCount (fst (apply op l w)))
      by (rewrite Hop; reflexivity).
    rewrite apply_FavoritesCount in Hfc.
    rewrite increments_cons in *.
    pose proof MinInt_value as Hmin.
    assert (Hlen : 0 <= increments ops) by (unfold increments; lia).
    specialize (IH l1 w1).
    destruct op; cbn [is_increment] in *; try (rewrite Hfc in IH; lia).
    + rewrite wrap_int_id in Hfc by lia. rewrite Hfc in IH. lia.
    + destruct (0 <? FavoritesCount l) eqn:Hpos.
      * apply Z.ltb_lt in Hpos.
        rewrite wrap_int_id in Hfc by lia. rewrite Hfc in IH. lia.
      * apply Z.ltb_ge in Hpos. rewrite Hfc in IH. lia.
Qed.

(** C10, as the code has it.  A listing made by [NewListing] has
    [FavoritesCount = 0]; every operation keeps the counter non-negative
    provided [IncrementFavorites] is not applied at the largest [int];
    [DecrementFavorites] never takes it below zero; and from a new
    listing every sequence of operations with at most [MaxInt]
    increments, however many decrements it holds, ends non-negative. *)
Theorem FavoritesCount_stays_nonnegative :
  (forall sellerID categoryID title description price condition location
          w l w',
      NewListing sellerID categoryID title description price condition
        location w = (inl l, w') ->
      FavoritesCount l = 0) /\
  (forall op l w,
      0 <= FavoritesCount l <= MaxInt ->
      (op = OpIncrementFavorites -> FavoritesCount l < MaxInt) ->
      0 <= FavoritesCount (fst (apply op l w)) <= MaxInt) /\
  (forall l w,
      0 <= FavoritesCount l <= MaxInt ->
      0 <= FavoritesCount (fst (DecrementFavorites l w)) <= FavoritesCount l) /\
  (forall ops l w,
      FavoritesCount l = 0 ->
      increments ops <= MaxInt ->
      0 <= FavoritesCount (fst (run ops l w))).
Proof.
  split; [exact NewListing_FavoritesCount|].
  split; [exact apply_keeps_nonnegative|].
  split.
  - intros l w Hl.
    change (DecrementFavorites l w) with (apply OpDecrementFavorites l w).
    rewrite apply_FavoritesCount.
    pose proof MinInt_value as Hmin.
    destruct (0 <? FavoritesCount l) eqn:Hpos; [|lia].
    apply Z.ltb_lt in Hpos. rewrite wrap_int_id; lia.
  - intros ops l w Hz Hb.
    apply (run_bounds ops l w); lia.
Qed.

(** One increment followed by three decrements on a fresh counter, and a
    decrement of a counter that is already zero. *)
Lemma FavoritesCount_stays_nonnegative_witness :
  0 <= FavoritesCount
         (fst (run [OpIncrementFavorites; OpDecrementFavorites;
                    OpDecrementFavorites; OpDecrementFavorites]
                 (set_FavoritesCount 0 scenario.crowded) scenario.world0)) /\
  0 <= FavoritesCount
         (fst (DecrementFavorites (set_FavoritesCount 0 scenario.crowded)
                 scenario.world0))
    <= FavoritesCount (set_FavoritesCount 0 scenario.crowded).
Proof.
  split.
  - apply (proj2 (proj2 (proj2 FavoritesCount_stays_nonnegative))).
    + reflexivity.
    + vm_compute. discriminate.
  - apply (proj1 (proj2 (proj2 FavoritesCount_stays_nonnegative))).
    vm_compute. split; discriminate.
Defined.

(** The claim as it is worded fails at the top of the [int] range: the
    counter of [crowded] is non-negative, and one more favourite makes it
    negative. *)
Lemma IncrementFavorites_wraps_negative :
  0 <= FavoritesCount scenario.crowded /\
  FavoritesCount (fst (apply OpIncrementFavorites scenario.crowded
                         scenario.world0)) = MinInt /\
  FavoritesCount (fst (IncrementFavorites scenario.crowded scenario.world0)) < 0.
Proof.
  split; [vm_compute; discriminate|].
  split; vm_compute; reflexivity.
Qed.

End ListingFacts.

(** ** The event bus *)

Section BusFacts.

Import events.

Context {json_event : JSON Event}.

(** Stamping an event with an identifier and a time leaves its type. *)
Lemma stamp_keeps_type :
  forall event w, Type_ (fst (stamp event w)) = Type_ event.
Proof.
  intros event w. unfold stamp, bind, ret, uuid_New, time_Now.
  destruct (is_empty (ID event)).
  - destruct (IsZero (Timestamp (set_ID (ids w (drawn w)) event))); reflexivity.
  - destruct (IsZero (Timestamp event)); reflexivity.
Qed.

(** The whole of [Publish]: with [event'] the event as the call leaves it,
    a failed [json.Marshal] is returned and nothing is sent; otherwise the
    immediate answer of [PublishAsync] is returned, and the message has
    been handed over exactly when that answer is [nil]. *)
Lemma Publish_outcome :
  forall event eb,
    let r := NATSEventBus_Publish event eb in
    let event' := fst (stamp event (env eb)) in
    let subject := "events." ++ Type_ event in
    fst (fst r) = event' /\
    match Marshal event' with
    | inr e => snd (fst r) = Some e /\ outbox (js (snd r)) = outbox (js eb)
    | inl data =>
        match publish_fault (js eb) subject data with
        | Some e => snd (fst r) = Some e /\ outbox (js (snd r)) = outbox (js eb)
        | None => snd (fst r) = None /\
                  outbox (js (snd r)) = (outbox (js eb) ++ [(subject, data)])%list
        end
    end.
Proof.
  intros event eb. cbv zeta.
  pose proof (stamp_keeps_type event (env eb)) as Ht.
  unfold NATSEventBus_Publish, bind, with_env.
  destruct (stamp event (env eb)) as [event' w'].
  cbn [fst snd] in *.
  destruct (Marshal event') as [data | e].
  - unfold with_js, PublishAsync. cbn [js].
    rewrite Ht.
    destruct (publish_fault (js eb) ("events." ++ Type_ event) data);
      cbn [fst snd ret js outbox]; repeat split; reflexivity.
  - cbn [fst snd ret js]. repeat split; reflexivity.
Qed.

Lemma Publish_keeps_type :
  forall event eb, Type_ (fst (fst (NATSEventBus_Publish event eb))) = Type_ event.
Proof.
  intros event eb.
  destruct (Publish_outcome event eb) as [H _]. cbv zeta in H.
  rewrite H. apply stamp_keeps_type.
Qed.






(** C4, as the code has it.  [Publish] returns the error of
    [json.Marshal], or else the error [PublishAsync] reports at once
    (closed connection and the like), unchanged; otherwise it returns
    success.  The broker's answer to the write, which arrives through the
    dropped future, has no part in the result. *)
Theorem Publish_reports_only_the_immediate_error :
  forall event eb,
    snd (fst (NATSEventBus_Publish event eb)) =
      match Marshal (fst (stamp event (env eb))) with
      | inr e => Some e
      | inl data => publish_fault (js eb) ("events." ++ Type_ event) data
      end
    /\
    forall answer,
      snd (fst (NATSEventBus_Publish event (with_broker answer eb))) =
      snd (fst (NATSEventBus_Publish event eb)).
Proof.
  assert (Hres : forall event eb,
             snd (fst (NATSEventBus_Publish event eb)) =
             match Marshal (fst (stamp event (env eb))) with
             | inr e => Some e
             | inl data => publish_fault (js eb) ("events." ++ Type_ event) data
             end).
  { intros event eb.
    destruct (Publish_outcome event eb) as [_ H]. cbv zeta in H.
    destruct (Marshal (fst (stamp event (env eb)))) as [data | e].
    - destruct (publish_fault (js eb) ("events." ++ Type_ event) data);
        destruct H as [H _]; exact H.
    - destruct H as [H _]; exact H. }
  intros event eb. split; [apply Hres|].
  intros answer. rewrite (Hres event (with_broker answer eb)), (Hres event eb).
  reflexivity.
Qed.

(** What the subscription callback answers, case by case. *)
Lemma on_message_cases :
  forall handler msg,
    match Unmarshal (msg_Data msg) zeroEvent with
    | inr _ => on_message handler msg = {| reply := Nak; call := None |}
    | inl event =>
        let r := handler (WithTimeout Background (30 * Second)) event in
        on_message handler msg =
        {| reply := match err r with Some _ => Nak | None => Ack end;
           call := Some r |}
    end.
Proof.
  intros handler msg. unfold on_message.
  destruct (Unmarshal (msg_Data msg) zeroEvent) as [event | e].
  - cbv zeta.
    destruct (err (handler (WithTimeout Background (30 * Second)) event));
      reflexivity.
  - reflexivity.
Qed.

(** C5, as the code has it.  The callback hands the handler a context
    with a thirty-second deadline and then waits for it to return: the
    message is acknowledged exactly when it decodes and the handler
    returns [nil], however long the handler took.  Only for a handler
    that returns an error once its deadline has passed does an
    acknowledgement imply that it returned within the thirty seconds. *)
Theorem on_message_acks_iff_handler_returns_nil :
  forall handler msg,
    (reply (on_message handler msg) = Ack <->
     exists event,
       Unmarshal (msg_Data msg) zeroEvent = inl event /\
       err (handler (WithTimeout Background (30 * Second)) event) = None) /\
    (honours_deadline handler ->
     reply (on_message handler msg) = Ack ->
     exists r, call (on_message handler msg) = Some r /\
               elapsed r <= 30 * Second).
Proof.
  intros handler msg.
  pose proof (on_message_cases handler msg) as Hc.
  destruct (Unmarshal (msg_Data msg) zeroEvent) as [event | e].
  - cbv zeta in Hc. rewrite Hc. cbn [reply call].
    destruct (err (handler (WithTimeout Background (30 * Second)) event))
      as [e|] eqn:He.
    + split.
      * split; [discriminate|].
        intros [event' [Heq Hnil]]. inversion Heq; subst event'.
        rewrite He in Hnil. discriminate.
      * intros _ Hack. discriminate.
    + split.
      * split; [|reflexivity].
        intros _. exists event. split; [reflexivity | exact He].
      * intros Hh _. eexists. split; [reflexivity|].
        destruct (Z_le_gt_dec
                    (elapsed (handler (WithTimeout Background (30 * Second))
                                event))
                    (30 * Second)) as [Hle | Hgt]; [exact Hle|].
        exfalso.
        apply (Hh (WithTimeout Background (30 * Second)) event (30 * Second));
          [reflexivity | lia | exact He].
  - rewrite Hc. cbn [reply call]. split.
    + split; [discriminate|].
      intros [event [Heq _]]. discriminate.
    + intros _ Hack. discriminate.
Qed.

(** C6, as the code has it.  A message that does not decode is answered
    with [Nak] and the handler is not called, so the envelope is
    scheduled for redelivery; that is the very answer the callback gives
    when a handler fails. *)
Theorem undecodable_message_is_nakked :
  forall handler msg e,
    Unmarshal (msg_Data msg) zeroEvent = inr e ->
    on_message handler msg = {| reply := Nak; call := None |} /\
    settle (reply (on_message handler msg)) = REDELIVER /\
    forall handler' msg' event' e',
      Unmarshal (msg_Data msg') zeroEvent = inl event' ->
      err (handler' (WithTimeout Background (30 * Second)) event') = Some e' ->
      reply (on_message handler' msg') = reply (on_message handler msg).
Proof.
  intros handler msg e Hbad.
  pose proof (on_message_cases handler msg) as Hc.
  rewrite Hbad in Hc. split; [exact Hc|].
  split; [rewrite Hc; reflexivity|].
  intros handler' msg' event' e' Hok Hfail.
  pose proof (on_message_cases handler' msg') as Hc'.
  rewrite Hok in Hc'. cbv zeta in Hc'.
  rewrite Hc', Hc, Hfail. reflexivity.
Qed.

(** *** One durable name per event type *)

Lemma Subscribe_consumers :
  forall eventType handler eb,
    consumers (js (snd (NATSEventBus_Subscribe eventType handler eb)))
    = consumers (js eb) \/
    consumers (js (snd (NATSEventBus_Subscribe eventType handler eb)))
    = (consumers (js eb) ++
       [mkConsumer ("events." ++ eventType) ("dongome-" ++ eventType)
          (on_message handler)])%list.
Proof.
  intros eventType handler eb.
  unfold NATSEventBus_Subscribe, bind, ret, with_js, js_Subscribe.
  destruct (subscribe_fault (js eb) ("events." ++ eventType)
              ("dongome-" ++ eventType) (consumers (js eb)));
    cbn [fst snd js consumers]; [left | right]; reflexivity.
Qed.

Lemma flat_map_short :
  forall (A C : Type) (f : A -> list C) (l : list A),
    (forall a, (List.length (f a) <= 1)%nat) ->
    (List.length (flat_map f l) <= List.length l)%nat.
Proof.
  intros A C f l Hf. induction l as [|a l IH]; cbn [flat_map List.length].
  - apply Nat.le_refl.
  - rewrite length_app. specialize (Hf a). lia.
Qed.

Lemma receivers_at_most_one_per_durable :
  forall choose subject cs,
    (List.length (receivers choose subject cs)
     <= List.length (durables_on subject cs))%nat.
Proof.
  intros choose subject cs. unfold receivers.
  apply flat_map_short. intros d.
  destruct (bound_to subject d cs); cbn [List.length]; lia.
Qed.

Lemma nodup_constant :
  forall (d : string) (l : list string),
    Forall (fun x => x = d) l ->
    (List.length (nodup string_dec l) <= 1)%nat.
Proof.
  intros d l Hl. induction Hl as [|x l Hx Hl IH]; cbn [nodup List.length].
  - lia.
  - destruct (in_dec string_dec x l) as [Hin | Hout]; [exact IH|].
    destruct l as [|y l'].
    + cbn. lia.
    + exfalso. apply Hout. left.
      inversion Hl; subst. reflexivity.
Qed.

Lemma durables_on_constant :
  forall subject d cs,
    Forall (fun c => c_durable c = d) cs ->
    (List.length (durables_on subject cs) <= 1)%nat.
Proof.
  intros subject d cs Hcs. unfold durables_on.
  apply (nodup_constant d).
  rewrite Forall_forall in *. intros x Hx.
  apply in_map_iff in Hx. destruct Hx as [c [Hc Hin]].
  apply filter_In in Hin. destruct Hin as [Hin _].
  rewrite <- Hc. apply Hcs. exact Hin.
Qed.

(** C2, on the code.  Two [Subscribe] calls for one event type bind their
    handlers to the same subject under the same durable name, the name
    being made from the event type alone; under the broker's rule an
    envelope published on that subject therefore reaches at most one of
    them, never both. *)
Theorem same_type_subscriptions_share_one_durable :
  forall eventType h1 h2 eb choose,
    consumers (js eb) = [] ->
    Forall (fun c => c_subject c = "events." ++ eventType /\
                     c_durable c = "dongome-" ++ eventType)
      (consumers
         (js (snd (NATSEventBus_Subscribe eventType h2
                     (snd (NATSEventBus_Subscribe eventType h1 eb)))))) /\
    (List.length
       (receivers choose ("events." ++ eventType)
          (consumers
             (js (snd (NATSEventBus_Subscribe eventType h2
                         (snd (NATSEventBus_Subscribe eventType h1 eb)))))))
     <= 1)%nat.
Proof.
  intros eventType h1 h2 eb choose Hnone.
  assert (Hall :
    Forall (fun c => c_subject c = "events." ++ eventType /\
                     c_durable c = "dongome-" ++ eventType)
      (consumers
         (js (snd (NATSEventBus_Subscribe eventType h2
                     (snd (NATSEventBus_Subscribe eventType h1 eb))))))).
  { destruct (Subscribe_consumers eventType h2
                (snd (NATSEventBus_Subscribe eventType h1 eb))) as [H2 | H2];
      rewrite H2;
      destruct (Subscribe_consumers eventType h1 eb) as [H1 | H1];
      rewrite H1, Hnone; cbn [app];
      repeat (constructor; [split; reflexivity|]); constructor. }
  split; [exact Hall|].
  eapply Nat.le_trans; [apply receivers_at_most_one_per_durable|].
  apply (durables_on_constant _ ("dongome-" ++ eventType)).
  eapply Forall_impl; [|exact Hall].
  intros c [_ Hd]; exact Hd.
Qed.

End BusFacts.

(** *** The bus at concrete inputs *)

Section BusExamples.

Import events.
Import scenario.

(** A handler that gives up at its deadline honours it. *)
Lemma punctual_honours_deadline :
  forall work, @honours_deadline (punctual work).
Proof.
  intros work ctx event d Hd Hlate.
  unfold punctual in *. rewrite Hd in *.
  destruct (d <? work) eqn:Hcmp; cbn [elapsed err] in *.
  - discriminate.
  - apply Z.ltb_ge in Hcmp. lia.
Qed.


(** The claim C4 as worded fails on a server that refuses the write: the
    client takes the message, [Publish] returns [nil], and the broker's
    answer to that very write is an error. *)
Lemma Publish_succeeds_though_the_broker_refuses :
  snd (fst (@NATSEventBus_Publish json_event registered (bus_of js_refusing)))
  = None /\
  outbox (js (snd (@NATSEventBus_Publish json_event registered
                     (bus_of js_refusing))))
  = [("events.user.registered", text "{user.registered}")] /\
  broker (js (bus_of js_refusing)) "events.user.registered"
    (text "{user.registered}")
  = inr (Foreign "nats: no response from stream").
Proof. vm_compute. repeat split. Qed.

(** The claim C5 as worded fails on a handler that ignores its context:
    it returns [nil] after a minute, twice the deadline, and the message
    is acknowledged. *)
Lemma sleepy_handler_is_acknowledged_after_the_deadline :
  @on_message json_event sleepy msg_empty_object
  = {| reply := Ack;
       call := Some {| elapsed := 60 * Second; err := None |} |} /\
  deadline (WithTimeout Background (30 * Second)) = Some (30 * Second) /\
  30 * Second < 60 * Second.
Proof. vm_compute. repeat split. Qed.

(** A handler that works for ten seconds and honours its deadline. *)
Lemma on_message_acks_iff_handler_returns_nil_witness :
  exists r,
    call (@on_message json_event (punctual (10 * Second)) msg_empty_object)
    = Some r /\
    elapsed r <= 30 * Second.
Proof.
  apply (proj2 (@on_message_acks_iff_handler_returns_nil json_event
                  (punctual (10 * Second)) msg_empty_object)).
  - apply punctual_honours_deadline.
  - reflexivity.
Defined.

(** The claim C6 as worded fails on a payload that is not JSON: the
    callback answers [Nak], which schedules the redelivery. *)
Lemma garbage_is_scheduled_for_redelivery :
  (exists e, @Unmarshal _ json_event (msg_Data msg_garbage) zeroEvent = inr e) /\
  reply (@on_message json_event notifications msg_garbage) = Nak /\
  settle (reply (@on_message json_event notifications msg_garbage)) = REDELIVER.
Proof.
  split; [eexists; reflexivity|]. split; reflexivity.
Qed.

Lemma undecodable_message_is_nakked_witness :
  @on_message json_event notifications msg_garbage
  = {| reply := Nak; call := None |}.
Proof.
  apply (@undecodable_message_is_nakked json_event notifications msg_garbage
           (Foreign "invalid character looking for beginning of value")).
  reflexivity.
Defined.

(** The demonstration's two subscriptions on [user.registered]: both are
    bound, both under [dongome-user.registered], and one envelope reaches
    one of them. *)
Lemma same_type_subscriptions_share_one_durable_witness :
  map c_durable
    (consumers
       (js (snd (@NATSEventBus_Subscribe json_event "user.registered" analytics
                   (snd (@NATSEventBus_Subscribe json_event "user.registered"
                           notifications (bus_of js_healthy)))))))
  = ["dongome-user.registered"; "dongome-user.registered"] /\
  (List.length
     (receivers (fun _ _ => 0%nat) ("events." ++ "user.registered")
        (consumers
           (js (snd (@NATSEventBus_Subscribe json_event "user.registered"
                       analytics
                       (snd (@NATSEventBus_Subscribe json_event
                               "user.registered" notifications
                               (bus_of js_healthy))))))))
   <= 1)%nat.
Proof.
  split.
  - reflexivity.
  - apply (@same_type_subscriptions_share_one_durable json_event
             "user.registered" notifications analytics (bus_of js_healthy)
             (fun _ _ => 0%nat)).
    reflexivity.
Defined.

(** Whichever consumer the broker picks, the other one misses the
    envelope. *)
Lemma demonstration_handlers_compete :
  forall choose,
    let cs :=
      consumers
        (js (snd (@NATSEventBus_Subscribe json_event "user.registered" analytics
                    (snd (@NATSEventBus_Subscribe json_event "user.registered"
                            notifications (bus_of js_healthy)))))) in
    receivers choose "events.user.registered" cs = [0%nat] \/
    receivers choose "events.user.registered" cs = [1%nat].
Proof.
  intros choose. cbv zeta.
  change (consumers _)
    with [mkConsumer "events.user.registered" "dongome-user.registered"
            (@on_message json_event notifications);
          mkConsumer "events.user.registered" "dongome-user.registered"
            (@on_message json_event analytics)].
  change (receivers choose "events.user.registered" _)
    with [nth (Nat.modulo (choose "dongome-user.registered" [0%nat; 1%nat]) 2)
            [0%nat; 1%nat] 0%nat].
  pose proof (Nat.mod_upper_bound
                (choose "dongome-user.registered" [0%nat; 1%nat]) 2) as Hb.
  destruct (Nat.modulo (choose "dongome-user.registered" [0%nat; 1%nat]) 2)
    as [|[|n]]; [left; reflexivity | right; reflexivity | lia].
Qed.

End BusExamples.

(** ** The envelope payload *)

Section PayloadFacts.

Import events.

Context {A : Type} {json_data : JSON A}.


End PayloadFacts.


(** ** The application service *)

Section ServiceFacts.

Import domain.
Import app.

Context {R B : Type}.
Context {repository : UserRepository R} {bus : events.EventBus B}.
Context {json_registered : events.JSON UserRegistered}.
Context {json_verified : events.JSON UserEmailVerified}.
Context {json_upgraded : events.JSON UserUpgradedToSeller}.

Ltac tidy H := cbn [fst snd userRepo eventBus world calls] in H.

Ltac open_service H :=
  unfold repo_Save, repo_Update, bus_Publish, record, in_repo, in_world,
    in_bus, events.NewEvent, bind, ret, time_Now, uuid_New in H;
  tidy H.

(** Case analysis on the answer of the next collaborator call in [H]. *)
Ltac answer H :=
  match type of H with
  | context [FindByEmail ?a ?r] => destruct (FindByEmail a r) as [[?|?] ?]
  | context [FindByID ?a ?r] => destruct (FindByID a r) as [[?|?] ?]
  | context [FindByVerificationToken ?a ?r] =>
      destruct (FindByVerificationToken a r) as [[?|?] ?]
  | context [NewUser ?a ?b ?c ?d ?w] =>
      destruct (NewUser a b c d w) as [[?|?] ?]
  | context [domain.VerifyEmail ?u ?w] =>
      destruct (domain.VerifyEmail u w) as [? ?]
  | context [domain.UpgradeToSeller ?a ?b ?u ?w] =>
      destruct (domain.UpgradeToSeller a b u w) as [[? [?|]] ?]
  | context [Save ?u ?r] => destruct (Save u r) as [[? [?|]] ?]
  | context [Update ?u ?r] => destruct (Update u r) as [[? [?|]] ?]
  | context [events.Marshal ?d] => destruct (events.Marshal d) as [?|?]
  | context [events.Publish ?e ?b] =>
      destruct (events.Publish e b) as [[? [?|]] ?]
  end; tidy H.

Lemma app_two :
  forall (A : Type) (l : list A) (x y : A),
    ((l ++ [x]) ++ [y])%list = (l ++ [x; y])%list.
Proof. intros A l x y. rewrite <- app_assoc. reflexivity. Qed.


(** Every run of [RegisterUser]: either it fails having made no outside
    call or the [Save] alone, or it has saved the user and published the
    fact, and then it returns the user whatever [Publish] answered. *)
Lemma RegisterUser_shape :
  forall cmd (svc : UserService R B),
    let r := RegisterUser cmd svc in
    (exists failure, fst r = inr failure /\
       (calls (snd r) = calls svc \/
        exists u a, calls (snd r) = (calls svc ++ [CallSave u a])%list)) \/
    (exists u e a, fst r = inl u /\
       calls (snd r) = (calls svc ++ [CallSave u None; CallPublish e a])%list).
Proof.
  intros cmd svc. cbv zeta.
  remember (RegisterUser cmd svc) as r eqn:H. symmetry in H.
  unfold RegisterUser in H. open_service H.
  repeat (answer H); subst r; cbn [fst snd calls].
  all: try (left; eexists; split; [reflexivity|]; left; reflexivity).
  all: try (left; eexists; split; [reflexivity|];
            right; eexists; eexists; reflexivity).
  all: right; eexists; eexists; eexists; split;
    [reflexivity | apply app_two].
Qed.

(** Every run of [VerifyEmail]: when it gets as far as [Publish], the
    user has been updated and the call returns what [Publish] answered. *)
Lemma VerifyEmail_shape :
  forall token (svc : UserService R B),
    let r := VerifyEmail token svc in
    (exists failure, fst r = Some failure /\
       (calls (snd r) = calls svc \/
        exists u a, calls (snd r) = (calls svc ++ [CallUpdate u a])%list)) \/
    (exists u e a, fst r = a /\
       calls (snd r) = (calls svc ++ [CallUpdate u None; CallPublish e a])%list).
Proof.
  intros token svc. cbv zeta.
  remember (VerifyEmail token svc) as r eqn:H. symmetry in H.
  unfold VerifyEmail in H. open_service H.
  repeat (answer H); subst r; cbn [fst snd calls].
  all: try (left; eexists; split; [reflexivity|]; left; reflexivity).
  all: try (left; eexists; split; [reflexivity|];
            right; eexists; eexists; reflexivity).
  all: right; eexists; eexists; eexists; split;
    [reflexivity | apply app_two].
Qed.

(** Every run of [UpgradeToSeller], likewise. *)
Lemma UpgradeToSeller_shape :
  forall cmd (svc : UserService R B),
    let r := UpgradeToSeller cmd svc in
    (exists failure, fst r = Some failure /\
       (calls (snd r) = calls svc \/
        exists u a, calls (snd r) = (calls svc ++ [CallUpdate u a])%list)) \/
    (exists u e a, fst r = a /\
       calls (snd r) = (calls svc ++ [CallUpdate u None; CallPublish e a])%list).
Proof.
  intros cmd svc. cbv zeta.
  remember (UpgradeToSeller cmd svc) as r eqn:H. symmetry in H.
  unfold UpgradeToSeller in H. open_service H.
  repeat (answer H); subst r; cbn [fst snd calls].
  all: try (left; eexists; split; [reflexivity|]; left; reflexivity).
  all: try (left; eexists; split; [reflexivity|];
            right; eexists; eexists; reflexivity).
  all: right; eexists; eexists; eexists; split;
    [reflexivity | apply app_two].
Qed.

End ServiceFacts.

(** *** The service at concrete inputs *)

Section ServiceExamples.

Import domain.
Import app.
Import scenario.

(** C1, on the code.  With the connection to the broker closed, so that
    every [Publish] fails: [VerifyEmail] stores John as verified and then
    returns the publish error; [UpgradeToSeller] stores John as a seller
    and then returns the publish error; [RegisterUser], their sibling,
    stores John and returns him with no error. *)
Theorem publish_failure_fails_VerifyEmail_and_UpgradeToSeller :
  (let r := @VerifyEmail _ _ rows_repository nats_bus json_verified
              "A-0000-4000-8000" (service [john] js_closed) in
   fst r = Some (Foreign "nats: connection closed") /\
   userRepo (snd r) = [john_verified] /\
   exists e,
     calls (snd r) =
     [CallUpdate john_verified None;
      CallPublish e (Some (Foreign "nats: connection closed"))]) /\
  (let r := @UpgradeToSeller _ _ rows_repository nats_bus json_upgraded
              upgrade_cmd (service [john_verified] js_closed) in
   fst r = Some (Foreign "nats: connection closed") /\
   map Role (userRepo (snd r)) = [UserRoleSeller] /\
   exists u e,
     calls (snd r) =
     [CallUpdate u None;
      CallPublish e (Some (Foreign "nats: connection closed"))]) /\
  (let r := @RegisterUser _ _ rows_repository nats_bus json_registered
              john_cmd (service [] js_closed) in
   fst r = inl john /\
   userRepo (snd r) = [john] /\
   exists e,
     calls (snd r) =
     [CallSave john None;
      CallPublish e (Some (Foreign "nats: connection closed"))]).
Proof.
  split; [|split]; cbv zeta.
  - split; [vm_compute; reflexivity|].
    split; [vm_compute; reflexivity|].
    eexists. vm_compute. reflexivity.
  - split; [vm_compute; reflexivity|].
    split; [vm_compute; reflexivity|].
    eexists. eexists. vm_compute. reflexivity.
  - split; [vm_compute; reflexivity|].
    split; [vm_compute; reflexivity|].
    eexists. vm_compute. reflexivity.
Qed.


Lemma pair_of_fst :
  forall (X Y : Type) (p : X * Y) (x : X), fst p = x -> p = (x, snd p).
Proof. intros X Y [x' y] x H. cbn in H. subst x'. reflexivity. Qed.


End ServiceExamples.

(* ===================================================================== *)
(** * Further properties of the code *)
(* ===================================================================== *)

(** ** pkg/errors *)

Section ErrorFacts.

Import errors.

Lemma HTTPStatusCode_in_range :
  forall e,
    In (HTTPStatusCode e)
      [StatusBadRequest; StatusNotFound; StatusUnauthorized; StatusForbidden;
       StatusConflict; StatusInternalServerError].
Proof.
  intros e. unfold HTTPStatusCode.
  repeat match goal with
         | |- context [if ?c then _ else _] => destruct c
         end; cbn; tauto.
Qed.

(** X1. The status of a domain error is one of 400, 404, 401, 403, 409
    and 500 and depends on its code alone; the five constructors map to
    400, 404, 401, 409 and 500; and the declared codes the switch does
    not list (a listing that is inactive, stock, payment and escrow
    failures) fall to 500 like any unknown code. *)
Theorem HTTPStatusCode_table :
  (forall e,
      In (HTTPStatusCode e)
        [StatusBadRequest; StatusNotFound; StatusUnauthorized; StatusForbidden;
         StatusConflict; StatusInternalServerError]) /\
  (forall message,
      HTTPStatusCode (ValidationError message) = 400 /\
      HTTPStatusCode (NotFoundError message) = 404 /\
      HTTPStatusCode (UnauthorizedError message) = 401 /\
      HTTPStatusCode (ConflictError message) = 409 /\
      HTTPStatusCode (InternalError message) = 500) /\
  (forall message details,
      Forall (fun code =>
                HTTPStatusCode (mkDomainError code message details) = 500)
        [ErrCodeListingInactive; ErrCodeInsufficientStock;
         ErrCodePaymentFailed; ErrCodeEscrowError]) /\
  (forall e e', Code e = Code e' -> HTTPStatusCode e = HTTPStatusCode e').
Proof.
  split; [exact HTTPStatusCode_in_range|].
  split; [intros message; repeat split|].
  split; [intros message details; repeat constructor|].
  intros e e' H. unfold HTTPStatusCode. rewrite H. reflexivity.
Qed.

End ErrorFacts.

(** ** The user aggregate, continued *)

Section UserLifeFacts.

Import domain.

Lemma world0_monotone : monotone_clock scenario.world0.
Proof.
  intros m n Hmn. unfold scenario.world0, clock, Millisecond, Second.
  lia.
Qed.

Lemma time_Now_reads :
  forall w, time_Now w =
            (clock w (ticks w),
             mkWorld (clock w) (S (ticks w)) (ids w) (drawn w) (bcrypt w)).
Proof. reflexivity. Qed.

(** X2. [NewUser] refuses an empty email, password, first name or last
    name with a validation error, before it hashes the password or draws
    an identifier: the world is left as it was. *)
Theorem NewUser_rejects_empty_fields :
  forall email password firstName lastName w,
    is_empty email || is_empty password || is_empty firstName
      || is_empty lastName = true ->
    exists message,
      NewUser email password firstName lastName w
      = (inr (Domain (errors.ValidationError message)), w).
Proof.
  intros email password firstName lastName w H.
  unfold NewUser.
  destruct (is_empty email); [eexists; reflexivity|].
  destruct (is_empty password); [eexists; reflexivity|].
  destruct (is_empty firstName); [eexists; reflexivity|].
  destruct (is_empty lastName); [eexists; reflexivity|].
  discriminate H.
Qed.

Lemma NewUser_rejects_empty_fields_witness :
  exists message,
    NewUser "test@example.com" "password123" EmptyString "Doe" scenario.world0
    = (inr (Domain (errors.ValidationError message)), scenario.world0).
Proof.
  apply (NewUser_rejects_empty_fields
           "test@example.com" "password123" EmptyString "Doe" scenario.world0).
  reflexivity.
Defined.

(** What a successful [NewUser] returns. *)
Lemma NewUser_success :
  forall email password firstName lastName w u w',
    NewUser email password firstName lastName w = (inl u, w') ->
    exists hash,
      bcrypt w password = inl hash /\
      u = {| ID := ids w (S (drawn w));
             Email := email;
             PasswordHash := hash;
             FirstName := firstName;
             LastName := lastName;
             PhoneNumber := EmptyString;
             Avatar := EmptyString;
             Status := UserStatusPending;
             Role := UserRoleBuyer;
             EmailVerified := false;
             PhoneVerified := false;
             VerificationToken := ids w (drawn w);
             LastLoginAt := None;
             CreatedAt := clock w (ticks w);
             UpdatedAt := clock w (S (ticks w));
             SellerProfile_ := None |} /\
      is_empty email = false /\ is_empty password = false /\
      is_empty firstName = false /\ is_empty lastName = false.
Proof.
  intros email password firstName lastName w u w' H.
  unfold NewUser in H.
  destruct (is_empty email); [discriminate H|].
  destruct (is_empty password); [discriminate H|].
  destruct (is_empty firstName); [discriminate H|].
  destruct (is_empty lastName); [discriminate H|].
  unfold bind, bcrypt_GenerateFromPassword in H.
  destruct (bcrypt w password) as [hash | e]; [|discriminate H].
  cbv [bind ret uuid_New time_Now ids drawn clock ticks] in H.
  injection H as Hu Hw. subst u.
  exists hash. repeat split.
Qed.

(** X3. A user made by [NewUser] carries the given email and names, is a
    pending buyer with nothing verified, no profile and no login; it is
    not active, not a seller, and [UpgradeToSeller] refuses it. *)
Theorem NewUser_makes_a_pending_buyer :
  forall email password firstName lastName w u w',
    NewUser email password firstName lastName w = (inl u, w') ->
    Email u = email /\ FirstName u = firstName /\ LastName u = lastName /\
    Status u = UserStatusPending /\ Role u = UserRoleBuyer /\
    EmailVerified u = false /\ PhoneVerified u = false /\
    SellerProfile_ u = None /\ LastLoginAt u = None /\
    IsActive u = false /\ IsSeller u = false /\ IsVerifiedSeller u = false /\
    forall businessName businessAddress w1,
      exists e,
        UpgradeToSeller businessName businessAddress u w1 = ((u, Some e), w1).
Proof.
  intros email password firstName lastName w u w' H.
  destruct (NewUser_success _ _ _ _ _ _ _ H) as [hash [_ [Hu _]]].
  subst u. cbn [Email FirstName LastName Status Role EmailVerified
                PhoneVerified SellerProfile_ LastLoginAt].
  repeat (split; [reflexivity|]).
  intros businessName businessAddress w1. eexists. reflexivity.
Qed.

Lemma NewUser_makes_a_pending_buyer_witness :
  Email scenario.john = "test@example.com" /\
  FirstName scenario.john = "John" /\ LastName scenario.john = "Doe" /\
  Status scenario.john = UserStatusPending /\
  Role scenario.john = UserRoleBuyer /\
  EmailVerified scenario.john = false /\ PhoneVerified scenario.john = false /\
  SellerProfile_ scenario.john = None /\ LastLoginAt scenario.john = None /\
  IsActive scenario.john = false /\ IsSeller scenario.john = false /\
  IsVerifiedSeller scenario.john = false /\
  forall businessName businessAddress w1,
    exists e,
      UpgradeToSeller businessName businessAddress scenario.john w1
      = ((scenario.john, Some e), w1).
Proof.
  apply (NewUser_makes_a_pending_buyer
           "test@example.com" "password123" "John" "Doe" scenario.world0
           scenario.john
           (snd (NewUser "test@example.com" "password123" "John" "Doe"
                   scenario.world0))).
  apply pair_of_fst. vm_compute. reflexivity.
Defined.

End UserLifeFacts.

Section UserOpFacts.

Import domain.

(** X4. Email verification opens the way to selling: for a user who is
    not yet a seller, [VerifyEmail] followed by [UpgradeToSeller]
    succeeds and gives an active seller whose profile is pending, so not
    a verified seller; any further upgrade is refused and changes
    nothing. *)
Theorem verified_user_becomes_pending_seller :
  forall businessName businessAddress u w,
    Role u <> UserRoleSeller ->
    let verified := VerifyEmail u w in
    let upgraded :=
      UpgradeToSeller businessName businessAddress (fst verified)
        (snd verified) in
    let seller := fst (fst upgraded) in
    snd (fst upgraded) = None /\
    IsActive seller = true /\
    IsSeller seller = true /\
    IsVerifiedSeller seller = false /\
    forall businessName' businessAddress' w',
      exists e,
        UpgradeToSeller businessName' businessAddress' seller w'
        = ((seller, Some e), w').
Proof.
  intros businessName businessAddress u w Hrole. cbv zeta.
  unfold VerifyEmail, bind, ret. rewrite time_Now_reads. cbn [fst snd].
  unfold UpgradeToSeller.
  cbn [Role EmailVerified set_UpdatedAt set_VerificationToken set_Status
       set_EmailVerified].
  destruct (String.eqb_spec (Role u) UserRoleSeller) as [Heq | _];
    [contradiction|].
  cbn [negb].
  unfold bind, ret, uuid_New. rewrite !time_Now_reads. cbn [fst snd].
  repeat (split; [reflexivity|]).
  intros businessName' businessAddress' w'. eexists. reflexivity.
Qed.

Lemma verified_user_becomes_pending_seller_witness :
  snd (fst (UpgradeToSeller "Test Business" "123 Business St"
              (fst (VerifyEmail scenario.john scenario.world0))
              (snd (VerifyEmail scenario.john scenario.world0)))) = None.
Proof.
  apply (verified_user_becomes_pending_seller
           "Test Business" "123 Business St" scenario.john scenario.world0).
  discriminate.
Defined.

Lemma apply_same_identity :
  forall op u w, same_identity u (fst (apply op u w)).
Proof.
  intros op u w. unfold same_identity.
  destruct op; cbn [apply].
  - repeat split.
  - unfold bind, ret, UpgradeToSeller.
    destruct (String.eqb (Role u) UserRoleSeller); [repeat split|].
    destruct (negb (EmailVerified u)); repeat split.
  - repeat split.
  - repeat split.
  - repeat split.
Qed.

(** X5. No business method of the user, and no sequence of them, changes
    who the user is: identifier, email, password hash, names, phone
    number, avatar, phone verification and creation time stay as they
    were. *)
Theorem user_methods_keep_identity :
  forall ops u w, same_identity u (fst (run ops u w)).
Proof.
  induction ops as [|op ops IH]; intros u w.
  - repeat split.
  - cbn [run]. unfold bind.
    pose proof (apply_same_identity op u w) as Hop.
    destruct (apply op u w) as [u1 w1]. cbn [fst] in Hop.
    specialize (IH u1 w1).
    unfold same_identity in *.
    destruct Hop as (H1 & H2 & H3 & H4 & H5 & H6 & H7 & H8 & H9).
    destruct IH as (I1 & I2 & I3 & I4 & I5 & I6 & I7 & I8 & I9).
    repeat split; congruence.
Qed.

Lemma apply_seller_has_profile :
  forall op u w,
    seller_has_profile u -> seller_has_profile (fst (apply op u w)).
Proof.
  intros op u w [Hs Hp]. unfold seller_has_profile.
  destruct op; cbn [apply]; try (split; assumption).
  unfold bind, ret, UpgradeToSeller.
  destruct (String.eqb (Role u) UserRoleSeller); [split; assumption|].
  destruct (negb (EmailVerified u)); [split; assumption|].
  cbn. split.
  - intros _. discriminate.
  - intros p Hsome. injection Hsome as Hp'. subst p. reflexivity.
Qed.

(** X6. Every seller has a profile, and every profile names its user:
    this holds of a user made by [NewUser] and is kept by every business
    method, so [IsVerifiedSeller] never finds a seller without one. *)
Theorem sellers_always_have_their_profile :
  (forall email password firstName lastName w u w',
      NewUser email password firstName lastName w = (inl u, w') ->
      seller_has_profile u) /\
  (forall ops u w,
      seller_has_profile u -> seller_has_profile (fst (run ops u w))).
Proof.
  split.
  - intros email password firstName lastName w u w' H.
    destruct (NewUser_success _ _ _ _ _ _ _ H) as [hash [_ [Hu _]]].
    subst u. split; cbn; [discriminate | intros p Hp; discriminate Hp].
  - induction ops as [|op ops IH]; intros u w Hu; [exact Hu|].
    cbn [run]. unfold bind.
    pose proof (apply_seller_has_profile op u w Hu) as Hop.
    destruct (apply op u w) as [u1 w1]. cbn [fst] in Hop.
    apply IH. exact Hop.
Qed.

Lemma sellers_always_have_their_profile_witness :
  seller_has_profile
    (fst (run [OpVerifyEmail; OpUpgradeToSeller "Test Business" "123 Business St";
               OpSuspend "Terms violation"; OpActivate]
            scenario.john scenario.world0)).
Proof.
  apply (proj2 sellers_always_have_their_profile).
  apply (proj1 sellers_always_have_their_profile
           "test@example.com" "password123" "John" "Doe" scenario.world0
           scenario.john
           (snd (NewUser "test@example.com" "password123" "John" "Doe"
                   scenario.world0))).
  apply pair_of_fst. vm_compute. reflexivity.
Defined.

Lemma apply_keeps_verified_and_seller :
  forall op u w,
    (EmailVerified u = true -> EmailVerified (fst (apply op u w)) = true) /\
    (Role u = UserRoleSeller -> Role (fst (apply op u w)) = UserRoleSeller).
Proof.
  intros op u w.
  destruct op; cbn [apply]; try (split; intros H; exact H).
  - split; [intros _; reflexivity | intros H; exact H].
  - unfold bind, ret, UpgradeToSeller.
    destruct (String.eqb (Role u) UserRoleSeller);
      [split; intros H; exact H|].
    destruct (negb (EmailVerified u)); split; intros H; cbn; auto.
Qed.

(** X7. Verification and the seller role are never taken back: no
    sequence of business methods, suspension included, unverifies an
    email or turns a seller into something else. *)
Theorem verification_and_seller_role_are_permanent :
  forall ops u w,
    (EmailVerified u = true -> EmailVerified (fst (run ops u w)) = true) /\
    (Role u = UserRoleSeller -> Role (fst (run ops u w)) = UserRoleSeller).
Proof.
  induction ops as [|op ops IH]; intros u w.
  - split; intros H; exact H.
  - cbn [run]. unfold bind.
    pose proof (apply_keeps_verified_and_seller op u w) as [Hv Hs].
    destruct (apply op u w) as [u1 w1]. cbn [fst] in Hv, Hs.
    destruct (IH u1 w1) as [IHv IHs].
    split; auto.
Qed.

Lemma verification_and_seller_role_are_permanent_witness :
  EmailVerified
    (fst (run [OpSuspend "Terms violation"; OpUpdateLastLogin]
            scenario.john_verified scenario.world0)) = true.
Proof.
  apply (proj1 (verification_and_seller_role_are_permanent
                  [OpSuspend "Terms violation"; OpUpdateLastLogin]
                  scenario.john_verified scenario.world0)).
  reflexivity.
Defined.

(** X8. With a clock that never runs backwards the time stamps are in
    order: a new user is created no later than it is updated; a login is
    recorded no later than the update it causes; and a seller profile is
    created no later than it is updated, which is no later than the
    user's own update. *)
Theorem timestamps_are_ordered :
  forall w,
    monotone_clock w ->
    (forall email password firstName lastName u w',
        NewUser email password firstName lastName w = (inl u, w') ->
        CreatedAt u <= UpdatedAt u) /\
    (forall u,
        exists t,
          LastLoginAt (fst (UpdateLastLogin u w)) = Some t /\
          t <= UpdatedAt (fst (UpdateLastLogin u w))) /\
    (forall businessName businessAddress u u' w',
        UpgradeToSeller businessName businessAddress u w = ((u', None), w') ->
        exists p,
          SellerProfile_ u' = Some p /\
          sp_CreatedAt p <= sp_UpdatedAt p <= UpdatedAt u').
Proof.
  intros w Hmono.
  assert (Hstep : forall n, clock w n <= clock w (S n))
    by (intros n; apply Hmono; lia).
  split; [|split].
  - intros email password firstName lastName u w' H.
    destruct (NewUser_success _ _ _ _ _ _ _ H) as [hash [_ [Hu _]]].
    subst u. cbn [CreatedAt UpdatedAt]. apply Hstep.
  - intros u. unfold UpdateLastLogin, bind, ret. rewrite !time_Now_reads.
    cbn. eexists. split; [reflexivity | apply Hstep].
  - intros businessName businessAddress u u' w' H.
    unfold UpgradeToSeller in H.
    destruct (String.eqb (Role u) UserRoleSeller); [discriminate H|].
    destruct (negb (EmailVerified u)); [discriminate H|].
    unfold bind, ret, uuid_New in H. rewrite !time_Now_reads in H.
    cbn in H. injection H as Hu Hw. subst u'.
    cbn. eexists. split; [reflexivity|].
    split; apply Hstep.
Qed.

Lemma timestamps_are_ordered_witness :
  CreatedAt scenario.john <= UpdatedAt scenario.john.
Proof.
  apply (proj1 (timestamps_are_ordered scenario.world0 world0_monotone)
           "test@example.com" "password123" "John" "Doe" scenario.john
           (snd (NewUser "test@example.com" "password123" "John" "Doe"
                   scenario.world0))).
  apply pair_of_fst. vm_compute. reflexivity.
Defined.

End UserOpFacts.

(** ** The listing aggregate, continued *)

Section ListingLifeFacts.

Import listings.

(** X9. [NewListing] accepts exactly the inputs with a seller, a category
    and a title that are not empty and a price for which [price <= 0] is
    false; a refusal is a validation error that leaves the world as it
    was.  The comparison being false for NaN, a NaN price is accepted. *)
Theorem NewListing_accepts_exactly :
  forall sellerID categoryID title description price condition location w,
    ((exists l w',
         NewListing sellerID categoryID title description price condition
           location w = (inl l, w')) <->
     (is_empty sellerID = false /\ is_empty categoryID = false /\
      is_empty title = false /\ float64_leb price float64_zero = false)) /\
    ((exists l w',
         NewListing sellerID categoryID title description price condition
           location w = (inl l, w')) \/
     (exists message,
         NewListing sellerID categoryID title description price condition
           location w = (inr (Domain (errors.ValidationError message)), w))) /\
    (is_empty sellerID = false -> is_empty categoryID = false ->
     is_empty title = false ->
     exists l w',
       NewListing sellerID categoryID title description S754_nan condition
         location w = (inl l, w') /\ Price l = S754_nan).
Proof.
  intros sellerID categoryID title description price condition location w.
  unfold NewListing.
  destruct (is_empty sellerID).
  { split; [|split].
    - split; [intros [l [w' H]]; discriminate H | intros [H _]; discriminate H].
    - right. eexists. reflexivity.
    - intros H; discriminate H. }
  destruct (is_empty categoryID).
  { split; [|split].
    - split; [intros [l [w' H]]; discriminate H
             | intros [_ [H _]]; discriminate H].
    - right. eexists. reflexivity.
    - intros _ H; discriminate H. }
  destruct (is_empty title).
  { split; [|split].
    - split; [intros [l [w' H]]; discriminate H
             | intros [_ [_ [H _]]]; discriminate H].
    - right. eexists. reflexivity.
    - intros _ _ H; discriminate H. }
  split; [|split].
  - destruct (float64_leb price float64_zero).
    + split; [intros [l [w' H]]; discriminate H
             | intros [_ [_ [_ H]]]; discriminate H].
    + split; [intros _; repeat split|].
      intros _. unfold bind, ret, uuid_New, time_Now.
      eexists. eexists. reflexivity.
  - destruct (float64_leb price float64_zero).
    + right. eexists. reflexivity.
    + left. unfold bind, ret, uuid_New, time_Now.
      eexists. eexists. reflexivity.
  - intros _ _ _. cbn [float64_leb]. unfold bind, ret, uuid_New, time_Now.
    eexists. eexists. split; reflexivity.
Qed.

Lemma NewListing_accepts_exactly_witness :
  exists l w',
    NewListing "B-0000-4000-8000" "C-0000-4000-8000" "Bicycle" "Road bicycle"
      S754_nan "good"
      (mkLocation "Greater Accra" "Accra" "Osu" float64_zero float64_zero)
      scenario.world0 = (inl l, w') /\ Price l = S754_nan.
Proof.
  apply (proj2 (proj2 (NewListing_accepts_exactly
                         "B-0000-4000-8000" "C-0000-4000-8000" "Bicycle"
                         "Road bicycle" S754_nan "good"
                         (mkLocation "Greater Accra" "Accra" "Osu"
                            float64_zero float64_zero)
                         scenario.world0))); reflexivity.
Defined.

(** X10. [Activate] fails exactly on a sold listing, and then leaves the
    listing and the clock untouched; on any other listing it succeeds and
    the listing is active. *)
Theorem Activate_refuses_exactly_sold :
  forall l w,
    (Status l = ListingStatusSold /\
     exists e, Activate l w = ((l, Some e), w)) \/
    (Status l <> ListingStatusSold /\
     snd (fst (Activate l w)) = None /\
     Status (fst (fst (Activate l w))) = ListingStatusActive /\
     same_offer l (fst (fst (Activate l w)))).
Proof.
  intros l w. unfold Activate.
  destruct (String.eqb_spec (Status l) ListingStatusSold) as [Hs | Hs].
  - left. split; [exact Hs|]. eexists. reflexivity.
  - right. split; [exact Hs|]. repeat split.
Qed.

(** X11. The guard on sold listings holds against [Activate] alone: a
    listing marked as sold stays sold under [Activate], but deactivating
    it first makes the next [Activate] succeed. *)
Theorem sold_listing_reactivates_through_Deactivate :
  forall l w,
    Status (fst (run [OpMarkAsSold; OpActivate] l w)) = ListingStatusSold /\
    Status (fst (run [OpMarkAsSold; OpDeactivate; OpActivate] l w))
    = ListingStatusActive.
Proof.
  intros l w. split; reflexivity.
Qed.

Lemma ordered_from_app :
  forall images n image,
    ordered_from n images ->
    img_Order image = n + Z.of_nat (List.length images) ->
    ordered_from n (images ++ [image]).
Proof.
  induction images as [|i images IH]; intros n image Ho Hi.
  - cbn in *. split; [lia | exact I].
  - cbn [app ordered_from List.length] in *. destruct Ho as [Hn Ho].
    split; [exact Hn|]. apply IH; [exact Ho|]. lia.
Qed.

Lemma apply_Images :
  forall op l w,
    Images (fst (apply op l w)) = Images l \/
    exists image,
      Images (fst (apply op l w)) = (Images l ++ [image])%list /\
      img_Order image = Z.of_nat (List.length (Images l)) /\
      img_ListingID image = ID l.
Proof.
  intros op l w. destruct op; cbn [apply]; try (left; reflexivity).
  - left. unfold bind, ret, Activate.
    destruct (String.eqb (Status l) ListingStatusSold); reflexivity.
  - left. unfold DecrementFavorites.
    destruct (0 <? FavoritesCount l); reflexivity.
  - right. eexists. repeat split.
Qed.

Lemma apply_Attributes :
  forall op l w,
    Attributes (fst (apply op l w)) = Attributes l \/
    exists attribute,
      Attributes (fst (apply op l w)) = (Attributes l ++ [attribute])%list /\
      attr_ListingID attribute = ID l.
Proof.
  intros op l w. destruct op; cbn [apply]; try (left; reflexivity).
  - left. unfold bind, ret, Activate.
    destruct (String.eqb (Status l) ListingStatusSold); reflexivity.
  - left. unfold DecrementFavorites.
    destruct (0 <? FavoritesCount l); reflexivity.
  - right. eexists. repeat split.
Qed.

Lemma apply_same_offer :
  forall op l w, same_offer l (fst (apply op l w)).
Proof.
  intros op l w. unfold same_offer.
  destruct op; cbn [apply]; try solve [repeat split].
  - unfold bind, ret, Activate.
    destruct (String.eqb (Status l) ListingStatusSold); repeat split.
  - unfold DecrementFavorites.
    destruct (0 <? FavoritesCount l); repeat split.
Qed.

(** X12. The images of a listing are numbered by position: if the [Order]
    fields read 0, 1, 2, ... they still do after any sequence of
    operations, each [AddImage] giving the new image the next number. *)
Theorem images_stay_numbered :
  forall ops l w,
    ordered_from 0 (Images l) ->
    ordered_from 0 (Images (fst (run ops l w))).
Proof.
  induction ops as [|op ops IH]; intros l w Ho; [exact Ho|].
  cbn [run]. unfold bind.
  pose proof (apply_Images op l w) as Hop.
  destruct (apply op l w) as [l1 w1]. cbn [fst] in Hop.
  apply IH.
  destruct Hop as [Hsame | [image [Happ [Hord _]]]].
  - rewrite Hsame. exact Ho.
  - rewrite Happ. apply ordered_from_app; [exact Ho | lia].
Qed.

Lemma images_stay_numbered_witness :
  map img_Order
    (Images (fst (run [OpAddImage "a.jpg" "front"; OpIncrementViews;
                       OpAddImage "b.jpg" "back"; OpAddImage "c.jpg" "side"]
                    scenario.crowded scenario.world0))) = [0; 1; 2] /\
  ordered_from 0
    (Images (fst (run [OpAddImage "a.jpg" "front"; OpIncrementViews;
                       OpAddImage "b.jpg" "back"; OpAddImage "c.jpg" "side"]
                    scenario.crowded scenario.world0))).
Proof.
  split; [reflexivity|].
  apply (images_stay_numbered
           [OpAddImage "a.jpg" "front"; OpIncrementViews;
            OpAddImage "b.jpg" "back"; OpAddImage "c.jpg" "side"]
           scenario.crowded scenario.world0).
  exact I.
Defined.

(** X14. No operation of the listing, and no sequence of them, changes
    what is on offer: identifier, seller, category, title, description,
    price, currency, condition, location, tags, negotiability, expiry
    and creation time stay as they were. *)
Theorem listing_operations_keep_the_offer :
  forall ops l w, same_offer l (fst (run ops l w)).
Proof.
  induction ops as [|op ops IH]; intros l w.
  - repeat split.
  - cbn [run]. unfold bind.
    pose proof (apply_same_offer op l w) as Hop.
    destruct (apply op l w) as [l1 w1]. cbn [fst] in Hop.
    specialize (IH l1 w1). unfold same_offer in *.
    destruct Hop as (H1 & H2 & H3 & H4 & H5 & H6 & H7 & H8 & H9 & H10 & H11
                     & H12 & H13).
    destruct IH as (I1 & I2 & I3 & I4 & I5 & I6 & I7 & I8 & I9 & I10 & I11
                    & I12 & I13).
    repeat split; congruence.
Qed.

Lemma apply_owns_its_parts :
  forall op l w, owns_its_parts l -> owns_its_parts (fst (apply op l w)).
Proof.
  intros op l w [Hi Ha].
  pose proof (apply_same_offer op l w) as [Hid _].
  unfold owns_its_parts. rewrite Hid. split.
  - destruct (apply_Images op l w) as [Hsame | [image [Happ [_ Hown]]]].
    + rewrite Hsame. exact Hi.
    + rewrite Happ. apply Forall_app. split; [exact Hi|].
      constructor; [exact Hown | constructor].
  - destruct (apply_Attributes op l w) as [Hsame | [attribute [Happ Hown]]].
    + rewrite Hsame. exact Ha.
    + rewrite Happ. apply Forall_app. split; [exact Ha|].
      constructor; [exact Hown | constructor].
Qed.

(** X13. Every image and every attribute of a listing carries the
    listing's own identifier: true of a new listing, which has neither,
    and kept by every sequence of operations. *)
Theorem parts_belong_to_their_listing :
  (forall sellerID categoryID title description price condition location
          w l w',
      NewListing sellerID categoryID title description price condition
        location w = (inl l, w') ->
      owns_its_parts l) /\
  (forall ops l w,
      owns_its_parts l -> owns_its_parts (fst (run ops l w))).
Proof.
  split.
  - intros sellerID categoryID title description price condition location
           w l w' H.
    unfold NewListing in H.
    destruct (is_empty sellerID); [discriminate H|].
    destruct (is_empty categoryID); [discriminate H|].
    destruct (is_empty title); [discriminate H|].
    destruct (float64_leb price float64_zero); [discriminate H|].
    cbv [bind ret uuid_New time_Now] in H.
    injection H as Hl Hw. subst l. split; constructor.
  - induction ops as [|op ops IH]; intros l w Hl; [exact Hl|].
    cbn [run]. unfold bind.
    pose proof (apply_owns_its_parts op l w Hl) as Hop.
    destruct (apply op l w) as [l1 w1]. cbn [fst] in Hop.
    apply IH. exact Hop.
Qed.

Lemma parts_belong_to_their_listing_witness :
  owns_its_parts
    (fst (run [OpAddImage "a.jpg" "front"; OpAddAttribute "colour" "red";
               OpPromote (24 * Hour)]
            scenario.crowded scenario.world0)).
Proof.
  apply (proj2 parts_belong_to_their_listing).
  split; constructor.
Defined.

(** X15. On a counter between zero and the largest [int], a favourite
    taken back leaves the count where it was; and [DecrementFavorites] on
    a counter that is not positive does nothing at all: the listing, its
    [UpdatedAt] included, and the clock are untouched. *)
Theorem favourite_given_and_taken_back :
  (forall l w,
      0 <= FavoritesCount l < MaxInt ->
      FavoritesCount
        (fst (run [OpIncrementFavorites; OpDecrementFavorites] l w))
      = FavoritesCount l) /\
  (forall l w,
      FavoritesCount l <= 0 -> DecrementFavorites l w = (l, w)).
Proof.
  split.
  - intros l w Hl.
    cbn [run]. unfold bind.
    pose proof (apply_FavoritesCount OpIncrementFavorites l w) as H1.
    destruct (apply OpIncrementFavorites l w) as [l1 w1]. cbn [fst] in H1.
    pose proof (apply_FavoritesCount OpDecrementFavorites l1 w1) as H2.
    destruct (apply OpDecrementFavorites l1 w1) as [l2 w2]. cbn [fst] in H2.
    cbn [ret fst]. rewrite H2, H1.
    pose proof MinInt_value as Hmin.
    rewrite (wrap_int_id (FavoritesCount l + 1)) by lia.
    destruct (0 <? FavoritesCount l + 1) eqn:Hpos.
    + rewrite wrap_int_id by lia. lia.
    + apply Z.ltb_ge in Hpos. lia.
  - intros l w Hl. unfold DecrementFavorites.
    destruct (0 <? FavoritesCount l) eqn:Hpos; [|reflexivity].
    apply Z.ltb_lt in Hpos. lia.
Qed.

Lemma favourite_given_and_taken_back_witness :
  FavoritesCount
    (fst (run [OpIncrementFavorites; OpDecrementFavorites]
            (set_FavoritesCount 7 scenario.crowded) scenario.world0)) = 7 /\
  DecrementFavorites (set_FavoritesCount 0 scenario.crowded) scenario.world0
  = (set_FavoritesCount 0 scenario.crowded, scenario.world0).
Proof.
  split.
  - apply (proj1 favourite_given_and_taken_back
             (set_FavoritesCount 7 scenario.crowded) scenario.world0).
    vm_compute. split; [discriminate | reflexivity].
  - apply (proj2 favourite_given_and_taken_back
             (set_FavoritesCount 0 scenario.crowded) scenario.world0).
    vm_compute. discriminate.
Defined.

End ListingLifeFacts.

(** ** The event bus, continued *)

Section BusLifeFacts.

Import events.

Context {json_event : JSON Event}.

Lemma stamp_fields :
  forall event w,
    Type_ (fst (stamp event w)) = Type_ event /\
    AggregateID (fst (stamp event w)) = AggregateID event /\
    Data (fst (stamp event w)) = Data event /\
    Metadata (fst (stamp event w)) = Metadata event /\
    ID (fst (stamp event w))
    = (if is_empty (ID event) then ids w (drawn w) else ID event) /\
    Timestamp (fst (stamp event w))
    = (if IsZero (Timestamp event) then clock w (ticks w)
       else Timestamp event).
Proof.
  intros event w. unfold stamp, bind, ret, uuid_New, time_Now.
  destruct (is_empty (ID event)).
  - cbn [set_ID Timestamp].
    destruct (IsZero (Timestamp event)); repeat split.
  - destruct (IsZero (Timestamp event)); repeat split.
Qed.

Lemma stamp_complete :
  forall event w,
    is_empty (ID event) = false ->
    IsZero (Timestamp event) = false ->
    stamp event w = (event, w).
Proof.
  intros event w Hid Hts. unfold stamp, bind, ret.
  rewrite Hid, Hts. reflexivity.
Qed.

(** What [Publish] leaves of the bus besides the outbox. *)
Lemma Publish_rest :
  forall event eb,
    consumers (js (snd (NATSEventBus_Publish event eb))) = consumers (js eb) /\
    closed (snd (NATSEventBus_Publish event eb)) = closed eb /\
    env (snd (NATSEventBus_Publish event eb)) = snd (stamp event (env eb)).
Proof.
  intros event eb.
  unfold NATSEventBus_Publish, bind, with_env.
  destruct (stamp event (env eb)) as [event' w'].
  cbn [fst snd].
  destruct (Marshal event') as [data | e].
  - unfold with_js, PublishAsync. cbn [js].
    destruct (publish_fault (js eb) ("events." ++ Type_ event') data);
      cbn [fst snd ret js consumers closed env]; repeat split.
  - cbn [fst snd ret js consumers closed env]. repeat split.
Qed.

(** X16. [Publish] stamps only what is missing: the identifier is drawn
    only if the event has none and the time is read only if the
    timestamp is zero; type, aggregate, data and metadata are never
    touched, so an event that comes with both is published as it is. *)
Theorem Publish_stamps_only_what_is_missing :
  forall event eb,
    let event' := fst (fst (NATSEventBus_Publish event eb)) in
    Type_ event' = Type_ event /\
    AggregateID event' = AggregateID event /\
    Data event' = Data event /\
    Metadata event' = Metadata event /\
    ID event'
    = (if is_empty (ID event) then ids (env eb) (drawn (env eb))
       else ID event) /\
    Timestamp event'
    = (if IsZero (Timestamp event) then clock (env eb) (ticks (env eb))
       else Timestamp event).
Proof.
  intros event eb. cbv zeta.
  destruct (Publish_outcome event eb) as [H _]. cbv zeta in H.
  rewrite H. apply stamp_fields.
Qed.

(** X17. [Publish] and [Subscribe] keep to their own side of the bus.
    [Publish] never binds or drops a consumer, and hands over exactly one
    message when it succeeds and none when it fails; [Subscribe] never
    sends, and binds exactly one consumer when it succeeds, leaving the
    bus as it was when it fails. *)
Theorem Publish_and_Subscribe_keep_to_their_side :
  forall event eventType handler eb,
    consumers (js (snd (NATSEventBus_Publish event eb))) = consumers (js eb) /\
    match snd (fst (NATSEventBus_Publish event eb)) with
    | None =>
        exists data,
          outbox (js (snd (NATSEventBus_Publish event eb)))
          = (outbox (js eb) ++ [(("events." ++ Type_ event)%string, data)])%list
    | Some _ =>
        outbox (js (snd (NATSEventBus_Publish event eb))) = outbox (js eb)
    end /\
    outbox (js (snd (NATSEventBus_Subscribe eventType handler eb)))
    = outbox (js eb) /\
    match fst (NATSEventBus_Subscribe eventType handler eb) with
    | None =>
        consumers (js (snd (NATSEventBus_Subscribe eventType handler eb)))
        = (consumers (js eb) ++
           [mkConsumer ("events." ++ eventType) ("dongome-" ++ eventType)
              (on_message handler)])%list
    | Some _ =>
        consumers (js (snd (NATSEventBus_Subscribe eventType handler eb)))
        = consumers (js eb)
    end.
Proof.
  intros event eventType handler eb.
  split; [apply Publish_rest|].
  split.
  { destruct (Publish_outcome event eb) as [_ H]. cbv zeta in H.
    destruct (Marshal (fst (stamp event (env eb)))) as [data | e].
    - destruct (publish_fault (js eb) ("events." ++ Type_ event) data);
        destruct H as [Hr Ho]; rewrite Hr; [exact Ho|].
      exists data. exact Ho.
    - destruct H as [Hr Ho]. rewrite Hr. exact Ho. }
  unfold NATSEventBus_Subscribe, bind, ret, with_js, js_Subscribe.
  destruct (subscribe_fault (js eb) ("events." ++ eventType)
              ("dongome-" ++ eventType) (consumers (js eb)));
    cbn [fst snd js outbox consumers]; split; reflexivity.
Qed.

End BusLifeFacts.

Section EnvelopeLifeFacts.

Import events.

Context {json_event : JSON Event}.
Context {A : Type} {json_data : JSON A}.

(** X18. What [NewEvent] stamps, [Publish] leaves alone: an event built
    by [NewEvent] from a non-empty identifier and a non-zero clock
    reading goes through [Publish] unchanged, and [Publish] draws no
    second identifier and reads no second time. *)
Theorem Publish_leaves_NewEvent_stamps :
  forall eventType aggregateID (d : A) w event w' eb,
    NewEvent eventType aggregateID d w = (inl event, w') ->
    is_empty (ids w (drawn w)) = false ->
    IsZero (clock w (ticks w)) = false ->
    fst (fst (NATSEventBus_Publish event eb)) = event /\
    env (snd (NATSEventBus_Publish event eb)) = env eb.
Proof.
  intros eventType aggregateID d w event w' eb Hnew Hid Hts.
  unfold NewEvent in Hnew.
  destruct (Marshal d) as [data | e]; [|discriminate Hnew].
  cbv [bind ret uuid_New time_Now ids drawn clock ticks] in Hnew.
  injection Hnew as Hev Hw.
  assert (Hs : stamp event (env eb) = (event, env eb)).
  { apply stamp_complete; rewrite <- Hev; cbn [ID Timestamp]; assumption. }
  split.
  - destruct (Publish_outcome event eb) as [H _]. cbv zeta in H.
    rewrite H, Hs. reflexivity.
  - destruct (Publish_rest event eb) as [_ [_ H]].
    rewrite H, Hs. reflexivity.
Qed.

End EnvelopeLifeFacts.

Lemma Publish_leaves_NewEvent_stamps_witness :
  fst (fst (@events.NATSEventBus_Publish scenario.json_event
              scenario.registered (scenario.bus_of scenario.js_healthy)))
  = scenario.registered /\
  events.env (snd (@events.NATSEventBus_Publish scenario.json_event
                     scenario.registered
                     (scenario.bus_of scenario.js_healthy)))
  = events.env (scenario.bus_of scenario.js_healthy).
Proof.
  refine (@Publish_leaves_NewEvent_stamps scenario.json_event
            domain.UserRegistered scenario.json_registered
            "user.registered" "B-0000-4000-8000"
            (domain.mkUserRegistered "B-0000-4000-8000" "test@example.com"
               "John" "Doe" "buyer" "A-0000-4000-8000"
               (1700000000 * Second + 2 * Millisecond))
            (mkWorld (clock scenario.world0) 3 (ids scenario.world0) 2
               (bcrypt scenario.world0))
            scenario.registered
            (snd (@events.NewEvent domain.UserRegistered
                    scenario.json_registered
                    "user.registered" "B-0000-4000-8000"
                    (domain.mkUserRegistered "B-0000-4000-8000"
                       "test@example.com" "John" "Doe" "buyer"
                       "A-0000-4000-8000"
                       (1700000000 * Second + 2 * Millisecond))
                    (mkWorld (clock scenario.world0) 3 (ids scenario.world0) 2
                       (bcrypt scenario.world0))))
            (scenario.bus_of scenario.js_healthy) _ _ _).
  - apply pair_of_fst. vm_compute. reflexivity.
  - reflexivity.
  - reflexivity.
Defined.

Section StartUpFacts.

Import events.


End StartUpFacts.

Section WorkerFacts.

Import events.
Import worker.

Context {json_event : JSON Event}.
Context {json_registered : JSON domain.UserRegistered}.
Context {json_upgraded : JSON domain.UserUpgradedToSeller}.

(** X20. The worker's subscription for [user.registered] acknowledges a
    message exactly when the envelope decodes and its data decodes as a
    [UserRegistered]; a message whose data does not decode is answered
    [Nak] with the decoder's error, every time it is delivered. *)
Theorem worker_acknowledges_what_it_can_parse :
  forall msg,
    (reply (on_message handleUserRegisteredBackground msg) = Ack <->
     exists event data,
       Unmarshal (msg_Data msg) zeroEvent = inl event /\
       ParseEventData event zeroUserRegistered = inl data) /\
    (forall event e,
       Unmarshal (msg_Data msg) zeroEvent = inl event ->
       ParseEventData event zeroUserRegistered = inr e ->
       on_message handleUserRegisteredBackground msg
       = {| reply := Nak; call := Some {| elapsed := 0; err := Some e |} |}).
Proof.
  intros msg.
  pose proof (on_message_cases handleUserRegisteredBackground msg) as Hc.
  destruct (Unmarshal (msg_Data msg) zeroEvent) as [event | e0].
  - cbv zeta in Hc. rewrite Hc. cbn [reply call].
    unfold handleUserRegisteredBackground.
    destruct (ParseEventData event zeroUserRegistered) as [data | e1] eqn:Hp;
      cbn [err elapsed].
    + split.
      * split; [|reflexivity]. intros _. exists event, data.
        split; [reflexivity | exact Hp].
      * intros event' e Heq Hbad. injection Heq as Heq. subst event'.
        rewrite Hp in Hbad. discriminate Hbad.
    + split.
      * split; [discriminate|].
        intros [event' [data [Heq Hok]]]. injection Heq as Heq. subst event'.
        rewrite Hp in Hok. discriminate Hok.
      * intros event' e Heq Hbad. injection Heq as Heq. subst event'.
        rewrite Hp in Hbad. injection Hbad as Hbad. subst e. reflexivity.
  - rewrite Hc. cbn [reply call]. split.
    + split; [discriminate|]. intros [event [data [Heq _]]]. discriminate Heq.
    + intros event e Heq. discriminate Heq.
Qed.

End WorkerFacts.

(** ** The application service, continued *)

Section ServiceLifeFacts.

Import domain.
Import app.

Context {R B : Type}.
Context {repository : UserRepository R} {bus : events.EventBus B}.
Context {json_registered : events.JSON UserRegistered}.
Context {json_verified : events.JSON UserEmailVerified}.
Context {json_upgraded : events.JSON UserUpgradedToSeller}.
Context {json_logged_in : events.JSON UserLoggedIn}.
Context (CompareHashAndPassword : string -> string -> option error).

Ltac tidy H := cbn [fst snd userRepo eventBus world calls] in H.

Ltac open_service H :=
  unfold repo_Save, repo_Update, bus_Publish, record, in_repo, in_world,
    in_bus, events.NewEvent, bind, ret, time_Now, uuid_New in H;
  tidy H.

Ltac answer H :=
  match type of H with
  | context [FindByEmail ?a ?r] => destruct (FindByEmail a r) as [[?|?] ?]
  | context [FindByID ?a ?r] => destruct (FindByID a r) as [[?|?] ?]
  | context [FindByVerificationToken ?a ?r] =>
      destruct (FindByVerificationToken a r) as [[?|?] ?]
  | context [NewUser ?a ?b ?c ?d ?w] =>
      destruct (NewUser a b c d w) as [[?|?] ?]
  | context [domain.VerifyEmail ?u ?w] =>
      destruct (domain.VerifyEmail u w) as [? ?]
  | context [domain.UpdateLastLogin ?u ?w] =>
      destruct (domain.UpdateLastLogin u w) as [? ?]
  | context [domain.UpgradeToSeller ?a ?b ?u ?w] =>
      destruct (domain.UpgradeToSeller a b u w) as [[? [?|]] ?]
  | context [ValidatePassword ?c ?u ?p] =>
      destruct (ValidatePassword c u p) as [?|]
  | context [negb (IsActive ?u)] => destruct (negb (IsActive u))
  | context [Save ?u ?r] => destruct (Save u r) as [[? [?|]] ?]
  | context [Update ?u ?r] => destruct (Update u r) as [[? [?|]] ?]
  | context [events.Marshal ?d] => destruct (events.Marshal d) as [?|?]
  | context [events.Publish ?e ?b] =>
      destruct (events.Publish e b) as [[? [?|]] ?]
  end; tidy H.

(** Close a leaf of the case analysis by naming its calls. *)
Ltac name_calls :=
  cbn [fst snd calls]; unfold persisted_then_published;
  first
    [ left; reflexivity
    | right; left; eexists; eexists; reflexivity
    | right; right; eexists; eexists; eexists;
      split; [rewrite <- app_assoc; reflexivity | split; reflexivity] ].

(** X21. No use case announces what it has not stored.  [RegisterUser],
    [LoginUser], [VerifyEmail] and [UpgradeToSeller] each make at most one
    call that persists the user and at most one [Publish]; the [Publish]
    comes only after that call has succeeded, and carries a fact of the
    use case's own type about the user that was persisted. *)
Theorem use_cases_publish_only_what_they_persisted :
  forall (svc : UserService R B),
    (forall cmd,
        persisted_then_published CallSave UserRegisteredEvent
          (calls svc) (calls (snd (RegisterUser cmd svc)))) /\
    (forall cmd,
        persisted_then_published CallUpdate UserLoggedInEvent
          (calls svc)
          (calls (snd (LoginUser CompareHashAndPassword cmd svc)))) /\
    (forall token,
        persisted_then_published CallUpdate UserEmailVerifiedEvent
          (calls svc) (calls (snd (VerifyEmail token svc)))) /\
    (forall cmd,
        persisted_then_published CallUpdate UserUpgradedToSellerEvent
          (calls svc) (calls (snd (UpgradeToSeller cmd svc)))).
Proof.
  intros svc. split; [|split; [|split]].
  - intros cmd.
    remember (RegisterUser cmd svc) as r eqn:H. symmetry in H.
    unfold RegisterUser in H. open_service H.
    repeat (answer H); subst r; name_calls.
  - intros cmd.
    remember (LoginUser CompareHashAndPassword cmd svc) as r eqn:H.
    symmetry in H.
    unfold LoginUser in H. open_service H.
    repeat (answer H); subst r; name_calls.
  - intros token.
    remember (VerifyEmail token svc) as r eqn:H. symmetry in H.
    unfold VerifyEmail in H. open_service H.
    repeat (answer H); subst r; name_calls.
  - intros cmd.
    remember (UpgradeToSeller cmd svc) as r eqn:H. symmetry in H.
    unfold UpgradeToSeller in H. open_service H.
    repeat (answer H); subst r; name_calls.
Qed.

End ServiceLifeFacts.

(** ** The HTTP handlers *)

Section HandlerFacts.

Import domain.
Import app.
Import infra.

Context {R B : Type}.
Context {repository : UserRepository R} {bus : events.EventBus B}.
Context {json_registered : events.JSON UserRegistered}.
Context {json_verified : events.JSON UserEmailVerified}.
Context {json_upgraded : events.JSON UserUpgradedToSeller}.
Context {json_logged_in : events.JSON UserLoggedIn}.
Context (CompareHashAndPassword : string -> string -> option error).

(** X22. A login with an email the repository does not find and a login
    with a wrong password get the same answer, 401 with the text
    [invalid credentials], and neither touches the clock, the bus or the
    record of outside calls. *)
Theorem refused_logins_look_alike :
  forall cmd (svc : UserService R B),
    ((exists e r',
         FindByEmail (login_Email cmd) (userRepo svc) = (inr e, r')) \/
     (exists user e r',
         FindByEmail (login_Email cmd) (userRepo svc) = (inl user, r') /\
         CompareHashAndPassword (PasswordHash user) (login_Password cmd)
         = Some e)) ->
    fst (infra.LoginUser CompareHashAndPassword (inl cmd) svc)
    = {| status := 401;
         body := [("error", VString "invalid credentials");
                  ("code", VString "UNAUTHORIZED")] |} /\
    calls (snd (infra.LoginUser CompareHashAndPassword (inl cmd) svc))
    = calls svc /\
    world (snd (infra.LoginUser CompareHashAndPassword (inl cmd) svc))
    = world svc /\
    eventBus (snd (infra.LoginUser CompareHashAndPassword (inl cmd) svc))
    = eventBus svc.
Proof.
  intros cmd svc H.
  unfold infra.LoginUser, app.LoginUser, bind, in_repo, ValidatePassword.
  destruct H as [[e [r' H]] | [user [e [r' [H Hbad]]]]]; rewrite H.
  - repeat split.
  - rewrite Hbad. repeat split.
Qed.

(** X23. A user who is not active, pending or suspended, cannot log in
    even with the right password: the answer is 401 with the text
    [account is not active], the last login is not recorded and nothing
    is updated or published. *)
Theorem inactive_user_cannot_log_in :
  forall cmd (svc : UserService R B) user r',
    FindByEmail (login_Email cmd) (userRepo svc) = (inl user, r') ->
    CompareHashAndPassword (PasswordHash user) (login_Password cmd) = None ->
    IsActive user = false ->
    fst (infra.LoginUser CompareHashAndPassword (inl cmd) svc)
    = {| status := 401;
         body := [("error", VString "account is not active");
                  ("code", VString "UNAUTHORIZED")] |} /\
    calls (snd (infra.LoginUser CompareHashAndPassword (inl cmd) svc))
    = calls svc /\
    world (snd (infra.LoginUser CompareHashAndPassword (inl cmd) svc))
    = world svc.
Proof.
  intros cmd svc user r' Hfound Hok Hinactive.
  unfold infra.LoginUser, app.LoginUser, bind, in_repo, ValidatePassword.
  rewrite Hfound, Hok, Hinactive. repeat split.
Qed.

(** X24. Registering an email the repository already holds is answered
    409 with the code [CONFLICT]; no password is hashed, no identifier is
    drawn, nothing is saved and nothing is published. *)
Theorem taken_email_is_a_conflict :
  forall cmd (svc : UserService R B) existing r',
    FindByEmail (cmd_Email cmd) (userRepo svc) = (inl existing, r') ->
    infra.RegisterUser (inl cmd) svc
    = ({| status := 409;
          body := [("error", VString "user with this email already exists");
                   ("code", VString "CONFLICT")] |},
       mkUserService r' (eventBus svc) (world svc) (calls svc)).
Proof.
  intros cmd svc existing r' Hfound.
  unfold infra.RegisterUser, app.RegisterUser, bind, in_repo.
  rewrite Hfound. reflexivity.
Qed.

(** X25. Whatever error the repository gives when it looks up a
    verification token or a user to upgrade, a missing row or a failing
    database alike, the handler answers 404 with the code [NOT_FOUND];
    the repository's own error never reaches the answer, and nothing is
    updated or published. *)
Theorem failed_lookups_are_answered_not_found :
  forall (svc : UserService R B),
    (forall token e r',
        FindByVerificationToken token (userRepo svc) = (inr e, r') ->
        infra.VerifyEmail (inl token) svc
        = ({| status := 404;
              body := [("error", VString "invalid verification token");
                       ("code", VString "NOT_FOUND")] |},
           mkUserService r' (eventBus svc) (world svc) (calls svc))) /\
    (forall userID cmd e r',
        FindByID userID (userRepo svc) = (inr e, r') ->
        infra.UpgradeToSeller userID (inl cmd) svc
        = ({| status := 404;
              body := [("error", VString "user not found");
                       ("code", VString "NOT_FOUND")] |},
           mkUserService r' (eventBus svc) (world svc) (calls svc))).
Proof.
  intros svc. split.
  - intros token e r' Hfound.
    unfold infra.VerifyEmail, app.VerifyEmail, bind, in_repo.
    rewrite Hfound. reflexivity.
  - intros userID cmd e r' Hfound.
    unfold infra.UpgradeToSeller, app.UpgradeToSeller, bind, in_repo.
    cbn [cmd_UserID]. rewrite Hfound. reflexivity.
Qed.

(** X26. The upgrade handler looks the user up by the identifier of the
    path, whatever [user_id] the body carries; if that user is already a
    seller or has not verified the email, the answer is 400 with the code
    [VALIDATION_ERROR] and nothing is updated or published. *)
Theorem refused_upgrade_is_a_bad_request :
  forall userID cmd (svc : UserService R B) user r',
    FindByID userID (userRepo svc) = (inl user, r') ->
    Role user = UserRoleSeller \/ EmailVerified user = false ->
    exists message,
      infra.UpgradeToSeller userID (inl cmd) svc
      = ({| status := 400;
            body := [("error", VString message);
                     ("code", VString "VALIDATION_ERROR")] |},
         mkUserService r' (eventBus svc) (world svc) (calls svc)).
Proof.
  intros userID cmd svc user r' Hfound Hrefused.
  unfold infra.UpgradeToSeller, app.UpgradeToSeller, bind, in_repo, in_world.
  cbn [cmd_UserID cmd_BusinessName cmd_BusinessAddress].
  rewrite Hfound. cbn [fst snd userRepo eventBus world calls].
  unfold domain.UpgradeToSeller.
  destruct (String.eqb_spec (Role user) UserRoleSeller) as [Hs | Hs].
  - eexists. reflexivity.
  - destruct Hrefused as [Hr | Hv]; [contradiction|].
    rewrite Hv. eexists. reflexivity.
Qed.

Lemma service_failure_status :
  forall e, In (status (service_failure e)) handler_statuses.
Proof.
  intros [d | msg]; cbn [service_failure status].
  - pose proof (HTTPStatusCode_in_range d) as H.
    unfold handler_statuses. cbn [In] in *. tauto.
  - unfold handler_statuses. cbn. tauto.
Qed.

(** X27. Every answer of the five handlers carries one of the statuses
    200, 201, 400, 401, 403, 404, 409 and 500; and a request body that
    does not bind is answered 400 with the binder's text, without the
    service being called. *)
Theorem handlers_answer_with_known_statuses :
  forall (svc : UserService R B),
    (forall bound,
        In (status (fst (infra.RegisterUser bound svc))) handler_statuses) /\
    (forall bound,
        In (status (fst (infra.LoginUser CompareHashAndPassword bound svc)))
          handler_statuses) /\
    (forall bound,
        In (status (fst (infra.VerifyEmail bound svc))) handler_statuses) /\
    (forall userID bound,
        In (status (fst (infra.UpgradeToSeller userID bound svc)))
          handler_statuses) /\
    (forall userID,
        In (status (fst (infra.GetUser userID svc))) handler_statuses) /\
    (forall e,
        infra.RegisterUser (inr e) svc = (bind_failure e, svc) /\
        infra.LoginUser CompareHashAndPassword (inr e) svc
        = (bind_failure e, svc) /\
        infra.VerifyEmail (inr e) svc = (bind_failure e, svc) /\
        (forall userID,
            infra.UpgradeToSeller userID (inr e) svc = (bind_failure e, svc))).
Proof.
  intros svc.
  assert (Hbad : forall e, In (status (bind_failure e)) handler_statuses)
    by (intros e; unfold handler_statuses; cbn; tauto).
  repeat split.
  - intros [cmd | e]; [|apply Hbad].
    unfold infra.RegisterUser, bind.
    destruct (app.RegisterUser cmd svc) as [[user | e] svc']; cbn [fst ret].
    + unfold handler_statuses. cbn. tauto.
    + apply service_failure_status.
  - intros [cmd | e]; [|apply Hbad].
    unfold infra.LoginUser, bind.
    destruct (app.LoginUser CompareHashAndPassword cmd svc)
      as [[user | e] svc']; cbn [fst ret].
    + unfold handler_statuses. cbn. tauto.
    + apply service_failure_status.
  - intros [token | e]; [|apply Hbad].
    unfold infra.VerifyEmail, bind.
    destruct (app.VerifyEmail token svc) as [[e |] svc']; cbn [fst ret].
    + apply service_failure_status.
    + unfold handler_statuses. cbn. tauto.
  - intros userID [cmd | e]; [|apply Hbad].
    unfold infra.UpgradeToSeller, bind.
    destruct (app.UpgradeToSeller _ svc) as [[e |] svc']; cbn [fst ret].
    + apply service_failure_status.
    + unfold handler_statuses. cbn. tauto.
  - intros userID.
    unfold infra.GetUser, bind.
    destruct (app.GetUser userID svc) as [[user | e] svc']; cbn [fst ret].
    + unfold handler_statuses. cbn. tauto.
    + apply service_failure_status.
Qed.

End HandlerFacts.

(** *** The handlers at concrete inputs *)

Section HandlerExamples.

Import domain.
Import app.
Import infra.
Import scenario.

(** Nobody is registered: the email is not found. *)
Lemma refused_logins_look_alike_witness :
  fst (@infra.LoginUser _ _ rows_repository nats_bus json_logged_in
         bcrypt_compare
         (inl (mkLoginCommand "test@example.com" "password123"))
         (service [] js_healthy))
  = {| status := 401;
       body := [("error", VString "invalid credentials");
                ("code", VString "UNAUTHORIZED")] |}.
Proof.
  apply (@refused_logins_look_alike _ _ rows_repository nats_bus
           json_logged_in bcrypt_compare
           (mkLoginCommand "test@example.com" "password123")
           (service [] js_healthy)).
  left. eexists. eexists. reflexivity.
Defined.

(** John is registered but has not verified his email. *)
Lemma inactive_user_cannot_log_in_witness :
  fst (@infra.LoginUser _ _ rows_repository nats_bus json_logged_in
         bcrypt_compare
         (inl (mkLoginCommand "test@example.com" "password123"))
         (service [john] js_healthy))
  = {| status := 401;
       body := [("error", VString "account is not active");
                ("code", VString "UNAUTHORIZED")] |}.
Proof.
  apply (@inactive_user_cannot_log_in _ _ rows_repository nats_bus
           json_logged_in bcrypt_compare
           (mkLoginCommand "test@example.com" "password123")
           (service [john] js_healthy) john [john]).
  - reflexivity.
  - reflexivity.
  - reflexivity.
Defined.

(** John registers a second time. *)
Lemma taken_email_is_a_conflict_witness :
  @infra.RegisterUser _ _ rows_repository nats_bus json_registered
    (inl john_cmd) (service [john] js_healthy)
  = ({| status := 409;
        body := [("error", VString "user with this email already exists");
                 ("code", VString "CONFLICT")] |},
     mkUserService [john] (eventBus (service [john] js_healthy))
       (world (service [john] js_healthy))
       (calls (service [john] js_healthy))).
Proof.
  apply (@taken_email_is_a_conflict _ _ rows_repository nats_bus
           json_registered john_cmd (service [john] js_healthy) john [john]).
  reflexivity.
Defined.

(** A token nobody holds. *)
Lemma failed_lookups_are_answered_not_found_witness :
  @infra.VerifyEmail _ _ rows_repository nats_bus json_verified
    (inl "no-such-token") (service [john] js_healthy)
  = ({| status := 404;
        body := [("error", VString "invalid verification token");
                 ("code", VString "NOT_FOUND")] |},
     mkUserService [john] (eventBus (service [john] js_healthy))
       (world (service [john] js_healthy))
       (calls (service [john] js_healthy))).
Proof.
  apply (proj1 (@failed_lookups_are_answered_not_found _ _ rows_repository
                  nats_bus json_verified json_upgraded
                  (service [john] js_healthy))
           "no-such-token"
           (Domain (errors.NotFoundError "user not found")) [john]).
  reflexivity.
Defined.

(** John, unverified, asks to become a seller; the body names another
    user. *)
Lemma refused_upgrade_is_a_bad_request_witness :
  exists message,
    @infra.UpgradeToSeller _ _ rows_repository nats_bus json_upgraded
      "B-0000-4000-8000"
      (inl (mkUpgradeToSellerCommand "somebody-else" "Test Business"
              "123 Business St"))
      (service [john] js_healthy)
    = ({| status := 400;
          body := [("error", VString message);
                   ("code", VString "VALIDATION_ERROR")] |},
       mkUserService [john] (eventBus (service [john] js_healthy))
         (world (service [john] js_healthy))
         (calls (service [john] js_healthy))).
Proof.
  apply (@refused_upgrade_is_a_bad_request _ _ rows_repository nats_bus
           json_upgraded "B-0000-4000-8000"
           (mkUpgradeToSellerCommand "somebody-else" "Test Business"
              "123 Business St")
           (service [john] js_healthy) john [john]).
  - reflexivity.
  - right. reflexivity.
Defined.

End HandlerExamples.
